(** * diydashboard: the Grafana SimpleJson backend and its metric store

    A shallow embedding of the HTTP handlers of the demonstration server
    ([queryHandler], [sendTimeseries], [sendTable], [writeError] and the
    handlers registered by [main]) together with the ring buffer that the
    dashboard examples obtain from the imported package [grada]. *)

From Stdlib Require Import ZArith Lia Ascii String.
From stdpp Require Import base list strings pretty.

Set Warnings "-register-all".

Local Open Scope string_scope.
Local Open Scope list_scope.
Local Open Scope nat_scope.

(** The double quote and the line feed, as one-byte strings. *)
Definition dquote : string := String "034"%char "".
Definition newline : string := String "010"%char "".

(** ** The metric store

    The two example programs create metrics through
    [grada.CreateMetric] / [CreateMetricWithBufSize] and feed them with
    [Metric.Add]; the package itself is imported, not part of the files
    at hand. *)

Module MetricStore.

Section Store.

(** The sample values are opaque to the buffer; [v0] is the zero value a
    freshly allocated slot holds. *)
Context {V : Type} (v0 : V).

(** Modelled from the spec: the [Sample] of the absent metric store, a
    value with the instant it was appended at. *)
Record Sample := mkSample { value : V; timestamp : Z }.

Definition zeroSample : Sample := mkSample v0 0.

(** Modelled from the spec: the [Metric] of the imported package grada (its
    source is absent; only the calls to it are at hand): a name, a fixed
    [capacity], an array [buffer] of [capacity] slots, the position
    [writeCursor] of the next write and the number [count] of valid
    samples. *)
Record Metric := mkMetric {
  name : string;
  capacity : nat;
  buffer : list Sample;
  writeCursor : nat;
  count : nat
}.

(** Modelled from the spec: the errors of the absent metric store and its
    registry. *)
Inductive Error := InvalidCapacity | DuplicateMetric | UnknownMetric.

(** Modelled from the spec: [create(name, capacity)] of the absent metric
    store; it fails with [InvalidCapacity] if [capacity <= 0] (the duplicate
    check belongs to the owning registry). *)
Definition create (n : string) (cap : Z) : Metric + Error :=
  if (cap <=? 0)%Z then inr InvalidCapacity
  else inl (mkMetric n (Z.to_nat cap) (replicate (Z.to_nat cap) zeroSample) 0 0).

(** Modelled from the spec: [add(value)] of the absent metric store; the
    sample is written at [writeCursor], which overwrites the oldest sample
    once [count = capacity]; the cursor advances circularly and [count]
    saturates at [capacity]. The caller supplies the current time. *)
Definition add (now : Z) (v : V) (m : Metric) : Metric :=
  mkMetric (name m) (capacity m)
           (<[writeCursor m := mkSample v now]> (buffer m))
           ((writeCursor m + 1) mod capacity m)
           (if (count m <? capacity m)%nat then S (count m) else count m).

(** Modelled from the spec: the position of the oldest retained sample in
    the absent store's circular buffer, [count] slots behind the cursor. *)
Definition oldest (m : Metric) : nat :=
  ((writeCursor m + capacity m - count m) mod capacity m)%nat.

(** Modelled from the spec: the absent store's buffer in logical order,
    the [count] retained samples read circularly from the oldest one. *)
Definition chronological (m : Metric) : list Sample :=
  take (count m) (drop (oldest m) (buffer m ++ buffer m)).

(** Modelled from the spec: [snapshot(maxPoints)] of the absent metric
    store; a copy of up to [maxPoints] most recent samples in chronological
    order, all of them when no limit is given. *)
Definition snapshot (maxPoints : option nat) (m : Metric) : list Sample :=
  let all := chronological m in
  match maxPoints with
  | None => all
  | Some k => drop (length all - k) all
  end.

(** Appending a sequence of (time, value) pairs, oldest first. *)
Definition add_all (m : Metric) (xs : list (Z * V)) : Metric :=
  foldl (fun m x => add (fst x) (snd x) m) m xs.

Definition sample_of (x : Z * V) : Sample := mkSample (snd x) (fst x).

(** The last [k] elements of a list. *)
Definition lastn {A} (k : nat) (l : list A) : list A := drop (length l - k) l.

(** Representation invariant of a metric. *)
Record wf (m : Metric) : Prop := {
  wf_cap : (0 < capacity m)%nat;
  wf_len : length (buffer m) = capacity m;
  wf_cur : (writeCursor m < capacity m)%nat;
  wf_cnt : (count m <= capacity m)%nat;
  wf_fill : (count m < capacity m)%nat -> writeCursor m = count m
}.

End Store.

End MetricStore.

(** ** The HTTP backend (main.go) *)

Module Http.

(** *** Numbers

    [int64] wraps a mathematical integer into the 64-bit signed range.
    Every [float64] the handlers produce is either a small literal or the
    conversion of a millisecond count, an integer of magnitude below 2^53,
    which a double holds exactly; such a double is represented by the
    integer it equals. *)

Definition int64 (z : Z) : Z :=
  ((z + 2 ^ 63) mod 2 ^ 64 - 2 ^ 63)%Z.

Record float64 := F64 { f64_int : Z }.

Definition float64_of_int64 (z : Z) : float64 := F64 z.

(** *** Values handed to [json.Marshal]

    The encoder sees the response structs through their field tags. *)

Inductive Value :=
| VString (s : string)
| VInt (z : Z)
| VFloat64 (f : float64)
| VSlice (l : list Value)
| VStruct (fields : list (string * Value)).

Class Marshaled (A : Type) := to_value : A -> Value.

#[export] Instance marshaled_string : Marshaled string := VString.
#[export] Instance marshaled_float64 : Marshaled float64 := VFloat64.
#[export] Instance marshaled_slice {A} `{Marshaled A} : Marshaled (list A) :=
  fun l => VSlice (map to_value l).

(** *** The JSON structs *)

(** An instant as decoded from its RFC 3339 text. *)
Record Time := mkTime { rfc3339 : string }.

Record QueryRaw := mkQueryRaw { Raw_From : string; Raw_To : string }.

Record QueryRange := mkQueryRange {
  Range_From : Time;
  Range_To : Time;
  Range_Raw : QueryRaw
}.

(** An element of [Query.Targets]. *)
Record QueryTarget := mkQueryTarget {
  Target : string;
  RefID : string;
  Type_ : string
}.

Record Query := mkQuery {
  PanelID : Z;
  Range : QueryRange;
  RangeRaw : QueryRaw;
  Interval : string;
  IntervalMs : Z;
  Targets : list QueryTarget;
  Format : string;
  MaxDataPoints : Z
}.

Record TimeseriesResponse := mkTimeseriesResponse {
  TS_Target : string;
  Datapoints : list (list float64)
}.

Record Column := mkColumn { Column_Text : string; Column_Type : string }.

(** The dynamically typed cells of a [Row] ([[]interface{}]). *)
Inductive Cell :=
| CString (s : string)
| CInt (z : Z)
| CFloat64 (f : float64).

Definition Row := list Cell.

Record TableResponse := mkTableResponse {
  Columns : list Column;
  Rows : list Row;
  Table_Type : string
}.

#[export] Instance marshaled_TimeseriesResponse : Marshaled TimeseriesResponse :=
  fun r => VStruct [("target", to_value (TS_Target r));
                    ("datapoints", to_value (Datapoints r))].

#[export] Instance marshaled_Column : Marshaled Column :=
  fun c => VStruct [("text", to_value (Column_Text c));
                    ("type", to_value (Column_Type c))].

#[export] Instance marshaled_Cell : Marshaled Cell :=
  fun c => match c with
           | CString s => VString s
           | CInt z => VInt z
           | CFloat64 f => VFloat64 f
           end.

#[export] Instance marshaled_TableResponse : Marshaled TableResponse :=
  fun r => VStruct [("columns", to_value (Columns r));
                    ("rows", to_value (Rows r));
                    ("type", to_value (Table_Type r))].

(** *** Requests and the response writer *)

(** [r.Body]: the bytes the reader delivers, and the error that ends the
    stream if it is not a clean end of input. *)
Record ReadCloser := mkBody { content : string; failure : option string }.

Record Request := mkRequest {
  Method : string;
  URL_Path : string;
  Body : ReadCloser
}.

Definition StatusOK : Z := 200.
Definition StatusBadRequest : Z := 400.
Definition StatusNotFound : Z := 404.

(** [http.ResponseWriter]: the status line is fixed by the first
    [WriteHeader], or by the first [Write], which implies [StatusOK]. *)
Record ResponseWriter := mkWriter { status : option Z; body : string }.

Definition freshWriter : ResponseWriter := mkWriter None "".

Definition WriteHeader (code : Z) (w : ResponseWriter) : ResponseWriter :=
  match status w with
  | None => mkWriter (Some code) (body w)
  | Some _ => w
  end.

Definition Write (b : string) (w : ResponseWriter) : ResponseWriter :=
  mkWriter (Some (default StatusOK (status w))) (body w +:+ b).

(** *** The handler monad

    A handler runs against the response writer of its request, the
    standard error stream (the log) and the wall clock; it returns or
    panics. [clockReads] counts the calls of [time.Now] the handlers make
    themselves: the standard logger reads the clock too, for the date and
    time it puts in front of each line, and neither that prefix nor that
    reading is part of the model. *)

Record World := mkWorld {
  writer : ResponseWriter;
  stderr : list string;
  clockReads : nat
}.

Inductive Outcome (A : Type) :=
| Done (a : A) (s : World)
| Panicked (msg : string) (s : World).
Arguments Done {A} a s.
Arguments Panicked {A} msg s.

Definition M (A : Type) := World -> Outcome A.

#[export] Instance M_ret : MRet M := fun A a s => Done a s.

#[export] Instance M_bind : MBind M := fun A B k m s =>
  match m s with
  | Done a s' => k a s'
  | Panicked msg s' => Panicked msg s'
  end.

Definition ret {A} (a : A) : M A := mret a.

Definition panic {A} (msg : string) : M A := fun s => Panicked msg s.

Definition w_WriteHeader (code : Z) : M unit :=
  fun s => Done tt (mkWorld (WriteHeader code (writer s)) (stderr s) (clockReads s)).

Definition w_Write (b : string) : M unit :=
  fun s => Done tt (mkWorld (Write b (writer s)) (stderr s) (clockReads s)).

Definition os_Stderr_Write (b : string) : M unit :=
  fun s => Done tt (mkWorld (writer s) (stderr s ++ [b]) (clockReads s)).

Fixpoint join_args (args : list string) : string :=
  match args with
  | [] => ""
  | [a] => a
  | a :: rest => a +:+ " " +:+ join_args rest
  end.

(** [log.Println]: the operands separated by spaces, one line. The date
    and time the standard logger puts in front, and the clock reading it
    takes for them, are left out. *)
Definition log_Println (args : list string) : M unit :=
  os_Stderr_Write (join_args args +:+ newline).

Definition ends_with_newline (s : string) : bool :=
  match rev (list_ascii_of_string s) with
  | c :: _ => Ascii.eqb c "010"%char
  | [] => false
  end.

(** [log.Printf] with the message already formatted: a line feed is
    added unless the message ends with one. As for [log_Println], the
    logger's date and time and its clock reading are left out. *)
Definition log_Printf (msg : string) : M unit :=
  os_Stderr_Write (if ends_with_newline msg then msg else msg +:+ newline).

(** [s[i]] on a slice, with the run-time bounds check. *)
Definition index {A} (l : list A) (i : nat) : M A :=
  match l !! i with
  | Some a => ret a
  | None => panic ("runtime error: index out of range [" +:+ pretty i
                   +:+ "] with length " +:+ pretty (length l))
  end.

(** What the client receives: the status and body that stand when the
    handler returns, or nothing if it panicked (the server recovers the
    panic and drops the connection). *)
Inductive Reply :=
| Replied (code : Z) (payload : string)
| Aborted (msg : string).

Definition reply_of (o : Outcome unit) : Reply :=
  match o with
  | Done _ s => Replied (default StatusOK (status (writer s))) (body (writer s))
  | Panicked msg _ => Aborted msg
  end.

Section Server.

(** The collaborators: the JSON decoder for a [Query] and the encoder,
    each returning its result or the text of its error ([json.Marshal]
    returns no bytes together with an error), and the wall clock, whose
    [k]-th reading is [clock k] nanoseconds since the epoch. *)
Variable json_Unmarshal : string -> Query + string.
Variable json_Marshal : Value -> string + string.
Variable clock : nat -> Z.

Definition time_Now_UnixNano : M Z :=
  fun s => Done (int64 (clock (clockReads s)))
                (mkWorld (writer s) (stderr s) (S (clockReads s))).

(** [float64(int64(time.Now().UnixNano() / 1000000))] *)
Definition nowMillis : M float64 :=
  n ← time_Now_UnixNano;
  ret (float64_of_int64 (int64 (n ÷ 1000000))).

Definition writeError (e : string) (m : string) : M unit :=
  w_WriteHeader StatusBadRequest;;
  w_Write ("{" +:+ dquote +:+ "error" +:+ dquote +:+ ": " +:+ dquote
           +:+ m +:+ ": " +:+ e +:+ dquote +:+ "}").

(** Go fixes the order of the four calls of [time.Now] in the literal,
    not their order with respect to the indexing of [q.Targets]; the index
    is taken first here. [queryHandler] has indexed the same slice before
    it calls [sendTimeseries]. *)
Definition sendTimeseries (q : Query) : M unit :=
  log_Println ["Sending time series data"];;
  t0 ← index (Targets q) 0;
  t1 ← nowMillis;
  t2 ← nowMillis;
  t3 ← nowMillis;
  t4 ← nowMillis;
  let response :=
    [ mkTimeseriesResponse (Target t0)
        [ [F64 68; t1]; [F64 49; t2]; [F64 2; t3]; [F64 11; t4] ] ] in
  let '(jsonResp, err) :=
    match json_Marshal (to_value response) with
    | inl b => (b, None)
    | inr e => ("", Some e)
    end in
  match err with
  | Some e => writeError e "cannot marshal response"
  | None => ret tt
  end;;
  log_Println ["Response: "; jsonResp];;
  w_Write jsonResp.

Definition sendTable (q : Query) : M unit :=
  log_Println ["Sending table data"];;
  t1 ← nowMillis;
  t2 ← nowMillis;
  t3 ← nowMillis;
  t4 ← nowMillis;
  let response :=
    [ mkTableResponse
        [ mkColumn "Name" "string"; mkColumn "Value" "number"; mkColumn "Time" "time" ]
        [ [CString "Alpha"; CInt 68; CFloat64 t1];
          [CString "Bravo"; CInt 49; CFloat64 t2];
          [CString "Charlie"; CInt 2; CFloat64 t3];
          [CString "Delta"; CInt 11; CFloat64 t4] ]
        "table" ] in
  let '(jsonResp, err) :=
    match json_Marshal (to_value response) with
    | inl b => (b, None)
    | inr e => ("", Some e)
    end in
  match err with
  | Some e => writeError e "cannot marshal response"
  | None => ret tt
  end;;
  log_Println ["Response: "; jsonResp];;
  w_Write jsonResp.

(** The body [writeError] sends. *)
Definition errorEnvelope (m e : string) : string :=
  "{" +:+ dquote +:+ "error" +:+ dquote +:+ ": " +:+ dquote
      +:+ m +:+ ": " +:+ e +:+ dquote +:+ "}".

(** The millisecond stamp obtained from the [k]-th clock reading. *)
Definition millis (k : nat) : float64 :=
  float64_of_int64 (int64 (int64 (clock k) ÷ 1000000)).

(** The object [sendTimeseries] builds for target [name] when the clock
    has been read [k] times before. *)
Definition timeseriesObject (name : string) (k : nat) : TimeseriesResponse :=
  mkTimeseriesResponse name
    [ [F64 68; millis k]; [F64 49; millis (k + 1)];
      [F64 2; millis (k + 2)]; [F64 11; millis (k + 3)] ].

(** The object [sendTable] builds when the clock has been read [k] times
    before. *)
Definition tableObject (k : nat) : TableResponse :=
  mkTableResponse
    [ mkColumn "Name" "string"; mkColumn "Value" "number"; mkColumn "Time" "time" ]
    [ [CString "Alpha"; CInt 68; CFloat64 (millis k)];
      [CString "Bravo"; CInt 49; CFloat64 (millis (k + 1))];
      [CString "Charlie"; CInt 2; CFloat64 (millis (k + 2))];
      [CString "Delta"; CInt 11; CFloat64 (millis (k + 3))] ]
    "table".

(** What the client receives from a send function, given the result of
    the encoder. *)
Definition sent (res : string + string) : Reply :=
  match res with
  | inl b => Replied StatusOK b
  | inr e => Replied StatusBadRequest (errorEnvelope "cannot marshal response" e)
  end.

Definition queryHandler (r : Request) : M unit :=
  let q := content (Body r) in
  let n := Z.of_nat (String.length q) in
  match failure (Body r) with
  | Some err => writeError err "Cannot read request body"
  | None =>
    log_Printf ("Request body (" +:+ pretty n +:+ " bytes read): " +:+ q);;
    match json_Unmarshal q with
    | inr err => writeError err "cannot unmarshal request body"
    | inl query =>
      t0 ← index (Targets query) 0;
      let target := Target t0 in
      log_Println ["Sending response for target " +:+ target];;
      t0' ← index (Targets query) 0;
      if String.eqb (Type_ t0') "timeserie" then sendTimeseries query
      else if String.eqb (Type_ t0') "table" then sendTable query
      else ret tt
    end
  end.

(** The handler [main] registers for the pattern ["/"]. *)
Definition rootHandler (r : Request) : M unit :=
  log_Println ["Received: "; URL_Path r];;
  log_Println ["Request body: "];;
  os_Stderr_Write (content (Body r));;
  w_WriteHeader StatusOK.

(** *** The server *)

Definition Handler := Request -> M unit.

(** A [ServeMux] pattern ending in a slash names a subtree, any other
    pattern a single path; the longest matching pattern wins. This is the
    selection of a handler for a path in canonical form. What [net/http]
    does before and around it is not modelled: the redirection of a path
    with [.], [..] or doubled slashes, the answer to [OPTIONS *], the
    suppression of the body of a reply to [HEAD]. *)
Definition pattern_matches (pat path : string) : bool :=
  if String.eqb (String.substring (String.length pat - 1) 1 pat) "/"
  then String.prefix pat path
  else String.eqb pat path.

Definition ServeMux := list (string * Handler).

Fixpoint mux_match (mux : ServeMux) (path : string) : option (string * Handler) :=
  match mux with
  | [] => None
  | (pat, h) :: rest =>
    let best := mux_match rest path in
    if pattern_matches pat path then
      match best with
      | Some (pat', h') =>
        if (String.length pat <? String.length pat')%nat then best else Some (pat, h)
      | None => Some (pat, h)
      end
    else best
  end.

Definition NotFound (r : Request) : M unit :=
  w_WriteHeader StatusNotFound;;
  w_Write ("404 page not found" +:+ newline).

(** The registrations of [main]. *)
Definition DefaultServeMux : ServeMux :=
  [ ("/", rootHandler); ("/query", queryHandler) ].

Definition mux_Handler (mux : ServeMux) (r : Request) : Handler :=
  match mux_match mux (URL_Path r) with
  | Some (_, h) => h
  | None => NotFound
  end.

(** A request is served with a writer of its own; [log] and [k] are the
    log so far and the number of clock readings so far. *)
Definition start (log : list string) (k : nat) : World :=
  mkWorld freshWriter log k.

Definition serve (h : Handler) (r : Request) (log : list string) (k : nat) : Reply :=
  reply_of (h r (start log k)).

Definition ListenAndServe (r : Request) (log : list string) (k : nat) : Reply :=
  serve (mux_Handler DefaultServeMux r) r log k.

End Server.

End Http.

(** ** A JSON codec standing for [encoding/json]

    The decoder and encoder the handlers are run with on concrete
    requests. It follows [encoding/json] on the inputs used here: RFC 8259
    syntax, struct fields matched by tag (exactly, else ignoring ASCII
    case), unknown keys skipped, [null] leaving a field untouched, a type
    mismatch reported after the rest has been decoded, array elements
    decoded into the slots the slice already has. In a string literal that
    is read, bytes above 0x7f are copied as they are; the text of a time
    error is abridged. *)

Module GoJSON.
Import Http.

Local Open Scope N_scope.

Inductive JSON :=
| JNull
| JBool (b : bool)
| JNumber (literal : string)
| JString (s : string)
| JArray (elems : list JSON)
| JObject (members : list (string * JSON)).

(** *** Reading *)

Inductive SyntaxError :=
| UnexpectedEnd
| InvalidChar (c : ascii) (context : string).

Definition syntax_message (e : SyntaxError) : string :=
  match e with
  | UnexpectedEnd => "unexpected end of JSON input"
  | InvalidChar c ctx => "invalid character '" +:+ String c "" +:+ "' " +:+ ctx
  end.

Definition Parser (A : Type) := list ascii -> SyntaxError + (A * list ascii).

Definition code (c : ascii) : N := N_of_ascii c.

Definition is_space (c : ascii) : bool :=
  (code c =? 32) || (code c =? 9) || (code c =? 10) || (code c =? 13).

Definition is_digit (c : ascii) : bool := (48 <=? code c) && (code c <=? 57).

Fixpoint skip_space (cs : list ascii) : list ascii :=
  match cs with
  | c :: rest => if is_space c then skip_space rest else cs
  | [] => []
  end.

Fixpoint digits (cs : list ascii) : list ascii * list ascii :=
  match cs with
  | c :: rest =>
    if is_digit c then let '(ds, r) := digits rest in (c :: ds, r) else ([], cs)
  | [] => ([], [])
  end.

Definition hex_val (c : ascii) : option N :=
  let n := code c in
  if (48 <=? n) && (n <=? 57) then Some (n - 48)
  else if (97 <=? n) && (n <=? 102) then Some (n - 87)
  else if (65 <=? n) && (n <=? 70) then Some (n - 55)
  else None.

(** The UTF-8 bytes of a code point. *)
Definition utf8 (u : N) : list ascii :=
  if u <? 128 then [ascii_of_N u]
  else if u <? 2048 then
    [ascii_of_N (192 + u / 64); ascii_of_N (128 + u mod 64)]
  else if u <? 65536 then
    [ascii_of_N (224 + u / 4096); ascii_of_N (128 + (u / 64) mod 64);
     ascii_of_N (128 + u mod 64)]
  else
    [ascii_of_N (240 + u / 262144); ascii_of_N (128 + (u / 4096) mod 64);
     ascii_of_N (128 + (u / 64) mod 64); ascii_of_N (128 + u mod 64)].

Definition hex4 (cs : list ascii) : option (N * list ascii) :=
  match cs with
  | a :: b :: c :: d :: rest =>
    match hex_val a, hex_val b, hex_val c, hex_val d with
    | Some x, Some y, Some z, Some w => Some (((x * 16 + y) * 16 + z) * 16 + w, rest)
    | _, _, _, _ => None
    end
  | _ => None
  end.

Definition first_bad_hex (cs : list ascii) : SyntaxError :=
  match filter (fun c => hex_val c = None) (take 4 cs) with
  | c :: _ => InvalidChar c "in \u hexadecimal character escape"
  | [] => UnexpectedEnd
  end.

Definition is_high_surrogate (u : N) : bool := (55296 <=? u) && (u <? 56320).
Definition is_low_surrogate (u : N) : bool := (56320 <=? u) && (u <? 57344).

(** The rest of a string literal, after its opening quote. *)
Fixpoint string_tail (fuel : nat) (acc : list ascii) (cs : list ascii)
  : SyntaxError + (string * list ascii) :=
  match fuel with
  | O => inl UnexpectedEnd
  | S fuel =>
    match cs with
    | [] => inl UnexpectedEnd
    | c :: rest =>
      if code c =? 34 then inr (string_of_list_ascii (rev acc), rest)
      else if code c <? 32 then inl (InvalidChar c "in string literal")
      else if code c =? 92 then
        match rest with
        | [] => inl UnexpectedEnd
        | e :: rest' =>
          let plain (b : N) := string_tail fuel (ascii_of_N b :: acc) rest' in
          if code e =? 34 then plain 34
          else if code e =? 92 then plain 92
          else if code e =? 47 then plain 47
          else if code e =? 98 then plain 8
          else if code e =? 102 then plain 12
          else if code e =? 110 then plain 10
          else if code e =? 114 then plain 13
          else if code e =? 116 then plain 9
          else if code e =? 117 then
            match hex4 rest' with
            | None => inl (first_bad_hex rest')
            | Some (u, rest'') =>
              if is_high_surrogate u then
                match rest'' with
                | b :: v :: rest3 =>
                  match (if (code b =? 92) && (code v =? 117) then hex4 rest3 else None) with
                  | Some (l, rest4) =>
                    if is_low_surrogate l
                    then string_tail fuel
                           (rev (utf8 (65536 + (u - 55296) * 1024 + (l - 56320))) ++ acc) rest4
                    else string_tail fuel (rev (utf8 65533) ++ acc) rest''
                  | None => string_tail fuel (rev (utf8 65533) ++ acc) rest''
                  end
                | _ => string_tail fuel (rev (utf8 65533) ++ acc) rest''
                end
              else if is_low_surrogate u
              then string_tail fuel (rev (utf8 65533) ++ acc) rest''
              else string_tail fuel (rev (utf8 u) ++ acc) rest''
            end
          else inl (InvalidChar e "in string escape code")
        end
      else string_tail fuel (c :: acc) rest
    end
  end.

(** A number literal, kept as its text. *)
Definition number (cs : list ascii) : SyntaxError + (string * list ascii) :=
  let '(sign, cs1) :=
    match cs with
    | c :: rest => if code c =? 45 then ([c], rest) else ([], cs)
    | [] => ([], cs)
    end in
  let '(int, cs2) := digits cs1 in
  match int with
  | [] =>
    match cs1 with
    | c :: _ => inl (InvalidChar c "in numeric literal")
    | [] => inl UnexpectedEnd
    end
  | d :: more =>
    let '(int, cs2) := if code d =? 48 then ([d], more ++ cs2) else (int, cs2) in
    let '(frac, cs3) :=
      match cs2 with
      | c :: rest =>
        if code c =? 46 then let '(ds, r) := digits rest in (Some (c :: ds), r)
        else (None, cs2)
      | [] => (None, cs2)
      end in
    match frac with
    | Some [_] =>
      match cs3 with
      | c :: _ => inl (InvalidChar c "after decimal point in numeric literal")
      | [] => inl UnexpectedEnd
      end
    | _ =>
      let '(expo, cs4) :=
        match cs3 with
        | c :: rest =>
          if (code c =? 101) || (code c =? 69) then
            let '(sg, rest') :=
              match rest with
              | s :: r => if (code s =? 43) || (code s =? 45) then ([s], r) else ([], rest)
              | [] => ([], rest)
              end in
            let '(ds, r) := digits rest' in
            (Some (c :: sg ++ ds, ds, r), cs3)
          else (None, cs3)
        | [] => (None, cs3)
        end in
      match expo with
      | Some (_, [], r) =>
        match r with
        | c :: _ => inl (InvalidChar c "in exponent of numeric literal")
        | [] => inl UnexpectedEnd
        end
      | Some (text, _, r) =>
        inr (string_of_list_ascii (sign ++ int ++ default [] frac ++ text), r)
      | None =>
        inr (string_of_list_ascii (sign ++ int ++ default [] frac), cs3)
      end
    end
  end.

(** A fixed word such as [true]. *)
Fixpoint word (w : list ascii) (name : string) (cs : list ascii)
  : SyntaxError + list ascii :=
  match w with
  | [] => inr cs
  | x :: w' =>
    match cs with
    | [] => inl UnexpectedEnd
    | c :: rest =>
      if Ascii.eqb c x then word w' name rest
      else inl (InvalidChar c ("in literal " +:+ name +:+ " (expecting '"
                               +:+ String x "" +:+ "')"))
    end
  end.

Fixpoint value (fuel : nat) (cs : list ascii) : SyntaxError + (JSON * list ascii) :=
  match fuel with
  | O => inl UnexpectedEnd
  | S fuel =>
    match skip_space cs with
    | [] => inl UnexpectedEnd
    | c :: rest =>
      if code c =? 123 then
        match skip_space rest with
        | c1 :: rest1 =>
          if code c1 =? 125 then inr (JObject [], rest1)
          else members fuel [] (skip_space rest)
        | [] => inl UnexpectedEnd
        end
      else if code c =? 91 then
        match skip_space rest with
        | c1 :: rest1 =>
          if code c1 =? 93 then inr (JArray [], rest1)
          else elements fuel [] (skip_space rest)
        | [] => inl UnexpectedEnd
        end
      else if code c =? 34 then
        match string_tail (S (length rest)) [] rest with
        | inl e => inl e
        | inr (s, r) => inr (JString s, r)
        end
      else if code c =? 116 then
        match word (list_ascii_of_string "rue") "true" rest with
        | inl e => inl e | inr r => inr (JBool true, r)
        end
      else if code c =? 102 then
        match word (list_ascii_of_string "alse") "false" rest with
        | inl e => inl e | inr r => inr (JBool false, r)
        end
      else if code c =? 110 then
        match word (list_ascii_of_string "ull") "null" rest with
        | inl e => inl e | inr r => inr (JNull, r)
        end
      else if (code c =? 45) || is_digit c then
        match number (c :: rest) with
        | inl e => inl e
        | inr (lit, r) => inr (JNumber lit, r)
        end
      else inl (InvalidChar c "looking for beginning of value")
    end
  end
with elements (fuel : nat) (acc : list JSON) (cs : list ascii)
  : SyntaxError + (JSON * list ascii) :=
  match fuel with
  | O => inl UnexpectedEnd
  | S fuel =>
    match value fuel cs with
    | inl e => inl e
    | inr (v, r) =>
      match skip_space r with
      | [] => inl UnexpectedEnd
      | c :: rest =>
        if code c =? 44 then elements fuel (v :: acc) rest
        else if code c =? 93 then inr (JArray (rev (v :: acc)), rest)
        else inl (InvalidChar c "after array element")
      end
    end
  end
with members (fuel : nat) (acc : list (string * JSON)) (cs : list ascii)
  : SyntaxError + (JSON * list ascii) :=
  match fuel with
  | O => inl UnexpectedEnd
  | S fuel =>
    match skip_space cs with
    | [] => inl UnexpectedEnd
    | q :: rest =>
      if code q =? 34 then
        match string_tail (S (length rest)) [] rest with
        | inl e => inl e
        | inr (k, r) =>
          match skip_space r with
          | [] => inl UnexpectedEnd
          | c :: rest1 =>
            if code c =? 58 then
              match value fuel rest1 with
              | inl e => inl e
              | inr (v, r1) =>
                match skip_space r1 with
                | [] => inl UnexpectedEnd
                | d :: rest2 =>
                  if code d =? 44 then members fuel ((k, v) :: acc) rest2
                  else if code d =? 125 then inr (JObject (rev ((k, v) :: acc)), rest2)
                  else inl (InvalidChar d "after object key:value pair")
                end
              end
            else inl (InvalidChar c "after object key")
          end
        end
      else inl (InvalidChar q "looking for beginning of object key string")
    end
  end.

(** A whole document: one value and nothing but white space after it.
    Entering an array or an object costs two units of fuel and at least
    one character, a further element one unit and at least two characters:
    twice the length and two is more than any input can use. *)
Definition parse (data : string) : SyntaxError + JSON :=
  let cs := list_ascii_of_string data in
  match value (S (S (length cs + length cs))) cs with
  | inl e => inl e
  | inr (v, r) =>
    match skip_space r with
    | [] => inr v
    | c :: _ => inl (InvalidChar c "after top-level value")
    end
  end.

(** *** Decoding into a [Query] *)

(** Either an error that stops the decoding at once, or the value
    together with the first type mismatch met on the way, if any. *)
Definition Dec (A : Type) := (string + (A * option string))%type.

Definition first_error (a b : option string) : option string :=
  match a with Some _ => a | None => b end.

Definition kind (v : JSON) : string :=
  match v with
  | JNull => "null"
  | JBool _ => "bool"
  | JNumber _ => "number"
  | JString _ => "string"
  | JArray _ => "array"
  | JObject _ => "object"
  end.

Definition mismatch (what path gotype : string) : string :=
  "json: cannot unmarshal " +:+ what +:+
  (if String.eqb path "" then " into Go value of type "
   else " into Go struct field " +:+ path +:+ " of type ") +:+ gotype.

Definition lower (c : ascii) : ascii :=
  if (65 <=? code c) && (code c <=? 90) then ascii_of_N (code c + 32) else c.

Definition fold_eq (a b : string) : bool :=
  String.eqb (string_of_list_ascii (map lower (list_ascii_of_string a)))
             (string_of_list_ascii (map lower (list_ascii_of_string b))).

Definition find_field {F} (key : string) (fields : list (string * F)) : option F :=
  match List.find (fun f => String.eqb (fst f) key) fields with
  | Some f => Some (snd f)
  | None => option_map snd (List.find (fun f => fold_eq (fst f) key) fields)
  end.

Definition Setter (A : Type) := JSON -> A -> Dec A.

Fixpoint decode_members {A} (fields : list (string * Setter A))
    (ms : list (string * JSON)) (a : A) (saved : option string) : Dec A :=
  match ms with
  | [] => inr (a, saved)
  | (k, v) :: rest =>
    match find_field k fields with
    | None => decode_members fields rest a saved
    | Some set =>
      match set v a with
      | inl e => inl e
      | inr (a', e) => decode_members fields rest a' (first_error saved e)
      end
    end
  end.

(** [strconv.ParseInt(lit, 10, 64)] on a number literal. *)
Definition parse_int (lit : string) : option Z :=
  let cs := list_ascii_of_string lit in
  let '(neg, ds) :=
    match cs with
    | c :: rest => if code c =? 45 then (true, rest) else (false, cs)
    | [] => (false, cs)
    end in
  if forallb is_digit ds then
    let n := fold_left (fun acc c => (acc * 10 + Z.of_N (code c - 48))%Z) ds 0%Z in
    let z := if neg then (- n)%Z else n in
    if ((- 2 ^ 63 <=? z) && (z <? 2 ^ 63))%Z then Some z else None
  else None.

Definition set_string {A} (path : string) (upd : string -> A -> A) : Setter A :=
  fun v a =>
    match v with
    | JString s => inr (upd s a, None)
    | JNull => inr (a, None)
    | _ => inr (a, Some (mismatch (kind v) path "string"))
    end.

Definition set_int {A} (path : string) (upd : Z -> A -> A) : Setter A :=
  fun v a =>
    match v with
    | JNumber lit =>
      match parse_int lit with
      | Some z => inr (upd z a, None)
      | None => inr (a, Some (mismatch ("number " +:+ lit) path "int"))
      end
    | JNull => inr (a, None)
    | _ => inr (a, Some (mismatch (kind v) path "int"))
    end.

Definition set_struct {A B} (path gotype : string) (fields : list (string * Setter B))
    (get : A -> B) (upd : B -> A -> A) : Setter A :=
  fun v a =>
    match v with
    | JObject ms =>
      match decode_members fields ms (get a) None with
      | inl e => inl e
      | inr (b, e) => inr (upd b a, e)
      end
    | JNull => inr (a, None)
    | _ => inr (a, Some (mismatch (kind v) path gotype))
    end.

(** The number two decimal digits stand for. *)
Definition num2 (a b : ascii) : N := 10 * (code a - 48) + (code b - 48).

Definition leap_year (y : N) : bool :=
  ((y mod 4 =? 0) && negb (y mod 100 =? 0)) || (y mod 400 =? 0).

Definition days_in (month year : N) : N :=
  if month =? 2 then (if leap_year year then 29 else 28)
  else if (month =? 4) || (month =? 6) || (month =? 9) || (month =? 11) then 30
  else 31.

(** A time as [Time.UnmarshalJSON] accepts it: [dddd-dd-ddTdd:dd:dd], an
    optional fraction after a period, then [Z] or a numeric offset, with
    every field in its range. *)
Definition is_rfc3339 (s : string) : bool :=
  let eq c n := code c =? n in
  match list_ascii_of_string s with
  | y1 :: y2 :: y3 :: y4 :: d1 :: m1 :: m2 :: d2 :: a1 :: a2 :: t ::
    h1 :: h2 :: c1 :: n1 :: n2 :: c2 :: s1 :: s2 :: rest =>
    let year := 100 * num2 y1 y2 + num2 y3 y4 in
    let month := num2 m1 m2 in
    let day := num2 a1 a2 in
    forallb is_digit [y1; y2; y3; y4; m1; m2; a1; a2; h1; h2; n1; n2; s1; s2]
    && eq d1 45 && eq d2 45 && eq t 84 && eq c1 58 && eq c2 58
    && (1 <=? month) && (month <=? 12)
    && (1 <=? day) && (day <=? days_in month year)
    && (num2 h1 h2 <? 24) && (num2 n1 n2 <? 60) && (num2 s1 s2 <? 60)
    && (let zone :=
          match rest with
          | p :: more =>
            if eq p 46 then let '(ds, r) := digits more in
                            match ds with [] => [] | _ => r end
            else rest
          | [] => []
          end in
        match zone with
        | [z] => eq z 90
        | [sg; o1; o2; c; o3; o4] =>
          (eq sg 43 || eq sg 45) && forallb is_digit [o1; o2; o3; o4] && eq c 58
          && (num2 o1 o2 <? 24) && (num2 o3 o4 <? 60)
        | _ => false
        end)
  | _ => false
  end.

Definition set_time {A} (upd : Time -> A -> A) : Setter A :=
  fun v a =>
    match v with
    | JString s =>
      if is_rfc3339 s then inr (upd (mkTime s) a, None)
      else inl ("parsing time " +:+ dquote +:+ s +:+ dquote +:+ " as "
                +:+ dquote +:+ "2006-01-02T15:04:05Z07:00" +:+ dquote)
    | JNull => inr (a, None)
    | _ => inl "Time.UnmarshalJSON: input is not a JSON string"
    end.

Definition raw_fields (path : string) : list (string * Setter QueryRaw) :=
  [ ("from", set_string (path +:+ ".from") (fun s r => mkQueryRaw s (Raw_To r)));
    ("to", set_string (path +:+ ".to") (fun s r => mkQueryRaw (Raw_From r) s)) ].

Definition range_fields : list (string * Setter QueryRange) :=
  [ ("from", set_time (fun t r => mkQueryRange t (Range_To r) (Range_Raw r)));
    ("to", set_time (fun t r => mkQueryRange (Range_From r) t (Range_Raw r)));
    ("raw", set_struct "Query.range.raw" "struct" (raw_fields "Query.range.raw")
              Range_Raw (fun w r => mkQueryRange (Range_From r) (Range_To r) w)) ].

Definition target_fields : list (string * Setter QueryTarget) :=
  [ ("target", set_string "Query.targets.target"
                 (fun s t => mkQueryTarget s (RefID t) (Type_ t)));
    ("refId", set_string "Query.targets.refId"
                (fun s t => mkQueryTarget (Target t) s (Type_ t)));
    ("type", set_string "Query.targets.type"
               (fun s t => mkQueryTarget (Target t) (RefID t) s)) ].

Definition zeroTarget : QueryTarget := mkQueryTarget "" "" "".

(** A [Query] under decoding, with the slots of the backing array of
    [Targets] that lie beyond its length: they keep what an earlier
    [targets] member of the same document left there. *)
Record Decoding := mkDecoding { decoded : Query; spare : list QueryTarget }.

(** The elements of a JSON array, each decoded into the slot the backing
    array has at its position, a zero element where it has none. The
    result is the decoded elements and the slots left over. *)
Fixpoint decode_targets (vs : list JSON) (backing : list QueryTarget)
    (saved : option string) : Dec (list QueryTarget * list QueryTarget) :=
  match vs with
  | [] => inr (([], backing), saved)
  | v :: rest =>
    let '(slot, backing') :=
      match backing with
      | t :: b => (t, b)
      | [] => (zeroTarget, [])
      end in
    match set_struct "Query.targets" "struct" target_fields id (fun t _ => t) v slot with
    | inl e => inl e
    | inr (t, e) =>
      match decode_targets rest backing' (first_error saved e) with
      | inl e' => inl e'
      | inr ((ts, over), e') => inr ((t :: ts, over), e')
      end
    end
  end.

Definition with_targets (ts : list QueryTarget) (q : Query) : Query :=
  mkQuery (PanelID q) (Range q) (RangeRaw q) (Interval q) (IntervalMs q)
          ts (Format q) (MaxDataPoints q).

(** An empty array and [null] leave a slice without backing array. *)
Definition set_targets : Setter Decoding :=
  fun v d =>
    match v with
    | JArray [] => inr (mkDecoding (with_targets [] (decoded d)) [], None)
    | JArray vs =>
      match decode_targets vs (Targets (decoded d) ++ spare d) None with
      | inl e => inl e
      | inr ((ts, over), e) => inr (mkDecoding (with_targets ts (decoded d)) over, e)
      end
    | JNull => inr (mkDecoding (with_targets [] (decoded d)) [], None)
    | _ => inr (d, Some (mismatch (kind v) "Query.targets" "[]struct"))
    end.

(** A setter of a field other than [Targets]. *)
Definition on_query (set : Setter Query) : Setter Decoding :=
  fun v d =>
    match set v (decoded d) with
    | inl e => inl e
    | inr (q, e) => inr (mkDecoding q (spare d), e)
    end.

Definition query_fields : list (string * Setter Decoding) :=
  [ ("panelId", on_query (set_int "Query.panelId" (fun z q =>
       mkQuery z (Range q) (RangeRaw q) (Interval q) (IntervalMs q)
               (Targets q) (Format q) (MaxDataPoints q))));
    ("range", on_query (set_struct "Query.range" "struct" range_fields Range
       (fun r q =>
       mkQuery (PanelID q) r (RangeRaw q) (Interval q) (IntervalMs q)
               (Targets q) (Format q) (MaxDataPoints q))));
    ("rangeRaw", on_query (set_struct "Query.rangeRaw" "struct"
       (raw_fields "Query.rangeRaw") RangeRaw (fun r q =>
       mkQuery (PanelID q) (Range q) r (Interval q) (IntervalMs q)
               (Targets q) (Format q) (MaxDataPoints q))));
    ("interval", on_query (set_string "Query.interval" (fun s q =>
       mkQuery (PanelID q) (Range q) (RangeRaw q) s (IntervalMs q)
               (Targets q) (Format q) (MaxDataPoints q))));
    ("intervalMs", on_query (set_int "Query.intervalMs" (fun z q =>
       mkQuery (PanelID q) (Range q) (RangeRaw q) (Interval q) z
               (Targets q) (Format q) (MaxDataPoints q))));
    ("targets", set_targets);
    ("format", on_query (set_string "Query.format" (fun s q =>
       mkQuery (PanelID q) (Range q) (RangeRaw q) (Interval q) (IntervalMs q)
               (Targets q) s (MaxDataPoints q))));
    ("maxDataPoints", on_query (set_int "Query.maxDataPoints" (fun z q =>
       mkQuery (PanelID q) (Range q) (RangeRaw q) (Interval q) (IntervalMs q)
               (Targets q) (Format q) z))) ].

(** [&Query{}] *)
Definition zeroQuery : Query :=
  mkQuery 0 (mkQueryRange (mkTime "") (mkTime "") (mkQueryRaw "" ""))
          (mkQueryRaw "" "") "" 0 [] "" 0.

(** [json.Unmarshal(data, &Query{})] *)
Definition Unmarshal (data : string) : Query + string :=
  match parse data with
  | inl e => inr (syntax_message e)
  | inr v =>
    match set_struct "" "main.Query" query_fields id (fun d _ => d) v
            (mkDecoding zeroQuery []) with
    | inl e => inr e
    | inr (_, Some e) => inr e
    | inr (d, None) => inl (decoded d)
    end
  end.

(** *** Writing *)

Definition hex_digit (n : N) : ascii :=
  if n <? 10 then ascii_of_N (48 + n) else ascii_of_N (87 + n).

(** A byte below 0x80 as the encoder writes it inside a string. *)
Definition escape (c : ascii) : list ascii :=
  let n := code c in
  let u := list_ascii_of_string "\u00" ++ [hex_digit (n / 16); hex_digit (n mod 16)] in
  if (n =? 34) || (n =? 92) then ["\"%char; c]
  else if n =? 8 then list_ascii_of_string "\b"
  else if n =? 12 then list_ascii_of_string "\f"
  else if n =? 10 then list_ascii_of_string "\n"
  else if n =? 13 then list_ascii_of_string "\r"
  else if n =? 9 then list_ascii_of_string "\t"
  else if (n <? 32) || (n =? 60) || (n =? 62) || (n =? 38) then u
  else [c].

Definition between (lo hi : N) (c : ascii) : bool :=
  (lo <=? code c) && (code c <=? hi).

(** The bytes that may follow the lead byte [c] of a UTF-8 sequence of
    three or four bytes. *)
Definition second_ok (c c1 : ascii) : bool :=
  if code c =? 224 then between 160 191 c1
  else if code c =? 237 then between 128 159 c1
  else if code c =? 240 then between 144 191 c1
  else if code c =? 244 then between 128 143 c1
  else between 128 191 c1.

(** The bytes of a string as the encoder writes them: a well-formed UTF-8
    sequence is copied, except the line and paragraph separators U+2028
    and U+2029, which are escaped; a byte that belongs to none is
    replaced by the escape of U+FFFD. *)
Fixpoint escape_bytes (cs : list ascii) : list ascii :=
  match cs with
  | [] => []
  | c :: rest =>
    if code c <? 128 then escape c ++ escape_bytes rest
    else
      let bad := list_ascii_of_string "\ufffd" ++ escape_bytes rest in
      match rest with
      | [] => bad
      | c1 :: rest1 =>
        if between 194 223 c then
          if between 128 191 c1 then c :: c1 :: escape_bytes rest1 else bad
        else if between 224 239 c then
          match rest1 with
          | c2 :: rest2 =>
            if second_ok c c1 && between 128 191 c2 then
              (if (code c =? 226) && (code c1 =? 128)
                  && ((code c2 =? 168) || (code c2 =? 169))
               then list_ascii_of_string "\u202" ++ [hex_digit (code c2 mod 16)]
               else [c; c1; c2]) ++ escape_bytes rest2
            else bad
          | [] => bad
          end
        else if between 240 244 c then
          match rest1 with
          | c2 :: c3 :: rest3 =>
            if second_ok c c1 && between 128 191 c2 && between 128 191 c3
            then c :: c1 :: c2 :: c3 :: escape_bytes rest3
            else bad
          | _ => bad
          end
        else bad
      end
  end.

Definition quote (s : string) : string :=
  dquote +:+ string_of_list_ascii (escape_bytes (list_ascii_of_string s))
         +:+ dquote.

Definition commas (parts : list string) : string := String.concat "," parts.

(** The compact encoding. An integer-valued double below 10^21 in
    magnitude is written as the digits of the integer. *)
Fixpoint encode (v : Value) : string :=
  match v with
  | VString s => quote s
  | VInt z => pretty z
  | VFloat64 f => pretty (f64_int f)
  | VSlice l => "[" +:+ commas (map encode l) +:+ "]"
  | VStruct fields =>
    "{" +:+ commas (map (fun kv => quote (fst kv) +:+ ":" +:+ encode (snd kv)) fields)
        +:+ "}"
  end.

(** [json.Marshal]; none of the values above is one it rejects. *)
Definition Marshal (v : Value) : string + string := inl (encode v).

End GoJSON.

(** ** Concrete collaborators for running the server *)

Module Run.
Import Http.

(** A JSON text written with single quotes in place of double quotes. *)
Definition json_text (s : string) : string :=
  string_of_list_ascii
    (map (fun c => if Ascii.eqb c "'"%char then "034"%char else c)
         (list_ascii_of_string s)).

(** A wall clock that stands still at [t] nanoseconds. *)
Definition frozen (t : Z) : nat -> Z := fun _ => t.

(** A wall clock that advances by [step] nanoseconds per reading. *)
Definition ticking (t step : Z) : nat -> Z := fun k => (t + Z.of_nat k * step)%Z.

Definition post (path body : string) : Request :=
  mkRequest "POST" path (mkBody body None).

(** The server of [main] with [encoding/json] and the given clock,
    answering its first request. *)
Definition server (clock : nat -> Z) (r : Request) : Reply :=
  ListenAndServe GoJSON.Unmarshal GoJSON.Marshal clock r [] 0.

(** A query with the given targets and nothing else set. *)
Definition query_of (ts : list QueryTarget) : Query :=
  mkQuery 0 (mkQueryRange (mkTime "") (mkTime "") (mkQueryRaw "" ""))
          (mkQueryRaw "" "") "" 0 ts "" 0.

Definition body_cpu1_timeserie : string :=
  json_text "{'targets':[{'target':'CPU1','type':'timeserie'}]}".

Definition body_cpu9_timeserie : string :=
  json_text "{'targets':[{'target':'CPU9','type':'timeserie'}]}".

Definition body_cpu1_table : string :=
  json_text "{'targets':[{'target':'CPU1','type':'table'}]}".

Definition body_cpu1_heatmap : string :=
  json_text "{'targets':[{'target':'CPU1','type':'heatmap'}]}".

Definition body_two_targets : string :=
  json_text "{'targets':[{'target':'CPU1','type':'timeserie'},{'target':'CPU2','type':'timeserie'}]}".

(** A query as the dashboard sends it: a time range, a point limit and a
    second target after the first. *)
Definition body_full_query : string :=
  json_text ("{'panelId':1,'range':{'from':'2017-10-30T06:33:44.866Z',"
    +:+ "'to':'2017-10-30T12:33:44.866Z','raw':{'from':'now-6h','to':'now'}},"
    +:+ "'interval':'30s','intervalMs':30000,"
    +:+ "'targets':[{'target':'CPU1','refId':'A','type':'timeserie'},"
    +:+ "{'target':'CPU2','refId':'B','type':'table'}],"
    +:+ "'maxDataPoints':550}").

(** The instant 2017-11-03T09:06:40.123456789Z in nanoseconds. *)
Definition an_instant : Z := 1509700000123456789.

End Run.

(** ** The program around the server ([main] of main.go) *)

Module Process.
Import Http.

(** A function body runs against the standard error stream and the stack
    of its deferred calls, each an effect on that stream with its
    arguments already evaluated; it returns, or the process leaves through
    [os.Exit], which runs no deferred call. *)
Definition Deferred := list string -> list string.

Record Frame := mkFrame {
  errout : list string;
  pending : list Deferred
}.

Inductive Ending (A : Type) :=
| Returned (a : A) (f : Frame)
| Exited (code : Z) (out : list string).
Arguments Returned {A} a f.
Arguments Exited {A} code out.

Definition P (A : Type) := Frame -> Ending A.

#[export] Instance P_ret : MRet P := fun A a f => Returned a f.

#[export] Instance P_bind : MBind P := fun A B k m f =>
  match m f with
  | Returned a f' => k a f'
  | Exited code out => Exited code out
  end.

Definition println (args : list string) : Deferred :=
  fun out => out ++ [join_args args +:+ newline].

Definition log_Println (args : list string) : P unit :=
  fun f => Returned tt (mkFrame (println args (errout f)) (pending f)).

(** [defer call]: the call is pushed; the last one pushed runs first. *)
Definition defer (call : Deferred) : P unit :=
  fun f => Returned tt (mkFrame (errout f) (call :: pending f)).

Definition os_Exit {A} (code : Z) : P A :=
  fun f => Exited code (errout f).

(** [log.Fatalln]: [Println] followed by [os.Exit(1)]. *)
Definition log_Fatalln {A} (args : list string) : P A :=
  log_Println args;; os_Exit 1.

(** What a run of the program leaves: the standard error stream, and the
    exit status if the process left through [os.Exit]. *)
Definition run (body : P unit) (out : list string) : list string * option Z :=
  match body (mkFrame out []) with
  | Returned _ f => (fold_left (fun o call => call o) (pending f) (errout f), None)
  | Exited code o => (o, Some code)
  end.

Section Main.

(** [http.ListenAndServe(":3001", nil)] from the point of view of [main]:
    the lines the handlers log while the server runs, and the error it
    returns at the end, if any. *)
Variable served : list string.
Variable err : option string.

Definition http_ListenAndServe : P (option string) :=
  fun f => Returned err (mkFrame (errout f ++ served) (pending f)).

Definition main : P unit :=
  log_Println ["start grafanago"];;
  defer (println ["stop grafanago"]);;
  err ← http_ListenAndServe;
  match err with
  | Some e => log_Fatalln [e]
  | None => mret tt
  end.

End Main.

End Process.

(** ** Notions used to state what the handlers do *)

Module Observations.
Import Http.

(** The line [queryHandler] logs for a body it could read. *)
Definition request_line (r : Request) : string :=
  let msg := "Request body (" +:+ pretty (Z.of_nat (String.length (content (Body r))))
             +:+ " bytes read): " +:+ content (Body r) in
  if ends_with_newline msg then msg else msg +:+ newline.

(** The world [s'] extends the world [s]: the log and the response body
    have grown at their ends. *)
Definition grows (s s' : World) : Prop :=
  (exists extra, stderr s' = stderr s ++ extra)
  /\ (exists more, body (writer s') = body (writer s) +:+ more).

(** A printable ASCII character other than the double quote and the
    backslash: one that stands for itself inside a JSON string. *)
Definition plain (c : ascii) : bool :=
  ((32 <=? GoJSON.code c) && (GoJSON.code c <? 128)
   && negb (GoJSON.code c =? 34) && negb (GoJSON.code c =? 92))%N.

(** A request whose body breaks off with a read error. *)
Definition broken_request : Request :=
  mkRequest "POST" "/query" (mkBody "{" (Some "unexpected EOF")).

End Observations.

(** * Properties of the metric store *)

Module MetricStoreFacts.
Import MetricStore.

Section Facts.
Context {V : Type} (v0 : V).


Lemma lastn_length {A} k (l : list A) : length (lastn k l) = (length l `min` k)%nat.
Proof. unfold lastn. rewrite length_drop. lia. Qed.

Lemma lastn_all {A} k (l : list A) : (length l <= k)%nat -> lastn k l = l.
Proof. intros H. unfold lastn. replace (length l - k)%nat with 0%nat by lia. done. Qed.

Lemma lastn_snoc_full {A} k (l : list A) x :
  (0 < k)%nat -> length l = k -> lastn k (l ++ [x]) = drop 1 l ++ [x].
Proof.
  intros Hk Hl. unfold lastn. rewrite length_app. simpl.
  replace (length l + 1 - k)%nat with 1%nat by lia.
  rewrite drop_app_le by lia. done.
Qed.

Lemma lastn_app_lastn {A} k (l r : list A) :
  lastn k (lastn k l ++ r) = lastn k (l ++ r).
Proof.
  unfold lastn. rewrite !length_app, length_drop.
  destruct (decide (length l <= k)) as [Hle|Hgt].
  - replace (length l - k) with 0 by lia. simpl.
    f_equal. lia.
  - replace (length l - (length l - k) + length r - k) with (length r) by lia.
    replace (length l + length r - k) with ((length l - k) + length r) by lia.
    rewrite <- (drop_drop (l ++ r)). rewrite (drop_app_le l r) by lia. done.
Qed.

Lemma chronological_filling (m : @Metric V) :
  wf m -> count m < capacity m -> chronological m = take (count m) (buffer m).
Proof.
  intros [Hc Hl Hw Hn Hf] Hlt. unfold chronological, oldest.
  rewrite (Hf Hlt).
  replace (count m + capacity m - count m) with (capacity m) by lia.
  rewrite Nat.Div0.mod_same, drop_0.
  rewrite take_app_le by lia. done.
Qed.

Lemma chronological_full (m : @Metric V) :
  wf m -> count m = capacity m ->
  chronological m = drop (writeCursor m) (buffer m) ++ take (writeCursor m) (buffer m).
Proof.
  intros [Hc Hl Hw Hn Hf] Heq. unfold chronological, oldest.
  rewrite Heq.
  replace (writeCursor m + capacity m - capacity m) with (writeCursor m) by lia.
  rewrite Nat.mod_small by lia.
  rewrite drop_app_le by lia.
  rewrite take_app_ge by (rewrite length_drop; lia).
  rewrite length_drop. f_equal. f_equal. lia.
Qed.

Lemma chronological_length (m : @Metric V) :
  wf m -> length (chronological m) = count m.
Proof.
  intros Hwf. destruct (decide (count m < capacity m)) as [Hlt|Hge].
  - rewrite chronological_filling by done. rewrite length_take.
    destruct Hwf. lia.
  - pose proof (wf_cnt _ Hwf). rewrite chronological_full by (done || lia).
    rewrite length_app, length_drop, length_take.
    destruct Hwf. lia.
Qed.

Lemma create_wf n cap (m : @Metric V) :
  create v0 n cap = inl m -> wf m /\ capacity m = Z.to_nat cap /\ count m = 0.
Proof.
  unfold create. destruct (Z.leb_spec cap 0) as [Hle|Hgt]; [done|].
  intros [= <-]. split; [|done].
  split; simpl; try lia. by rewrite length_replicate.
Qed.

Lemma add_wf now v (m : @Metric V) : wf m -> wf (add now v m).
Proof.
  intros [Hc Hl Hw Hn Hf]. split; simpl.
  - done.
  - by rewrite length_insert.
  - by apply Nat.mod_upper_bound; lia.
  - destruct (Nat.ltb_spec (count m) (capacity m)); lia.
  - destruct (Nat.ltb_spec (count m) (capacity m)) as [Hlt|Hge]; [|lia].
    intros Hlt'. rewrite (Hf Hlt). rewrite Nat.mod_small by lia. lia.
Qed.

Lemma add_capacity now v (m : @Metric V) : capacity (add now v m) = capacity m.
Proof. done. Qed.

Lemma chronological_add now v (m : @Metric V) :
  wf m ->
  chronological (add now v m) = lastn (capacity m) (chronological m ++ [mkSample v now]).
Proof.
  intros Hwf. pose proof (add_wf now v m Hwf) as Hwf'.
  pose proof Hwf as [Hc Hl Hw Hn Hf].
  destruct (decide (count m < capacity m)) as [Hlt|Hge].
  - (* still filling: the new sample lands right after the retained ones *)
    rewrite (chronological_filling m) by done.
    rewrite lastn_all by (rewrite length_app, length_take; simpl; lia).
    assert (Hins : take (S (count m)) (<[count m := mkSample v now]> (buffer m))
                   = take (count m) (buffer m) ++ [mkSample v now]).
    { rewrite (take_S_r _ _ (mkSample v now)).
      - by rewrite take_insert_ge by lia.
      - apply list_lookup_insert_eq. lia. }
    destruct (decide (S (count m) < capacity m)) as [Hlt'|Hge'].
    + rewrite chronological_filling; simpl.
      * destruct (Nat.ltb_spec (count m) (capacity m)); [|lia].
        by rewrite (Hf Hlt).
      * done.
      * destruct (Nat.ltb_spec (count m) (capacity m)); lia.
    + rewrite chronological_full; simpl.
      * rewrite (Hf Hlt).
        replace (count m + 1) with (capacity m) by lia.
        rewrite Nat.Div0.mod_same, drop_0, take_0, app_nil_r.
        rewrite <- Hins. rewrite take_ge; [done|].
        rewrite length_insert. lia.
      * done.
      * destruct (Nat.ltb_spec (count m) (capacity m)); lia.
  - (* full: the slot under the cursor held the oldest sample *)
    assert (Heq : count m = capacity m) by lia.
    rewrite (chronological_full m) by done.
    rewrite lastn_snoc_full; [|done|].
    2: { rewrite length_app, length_drop, length_take. lia. }
    rewrite chronological_full; simpl; [|done|].
    2: { destruct (Nat.ltb_spec (count m) (capacity m)); lia. }
    destruct (lookup_lt_is_Some_2 (buffer m) (writeCursor m)) as [x Hx]; [lia|].
    rewrite (drop_S _ _ _ Hx). simpl. rewrite drop_0.
    destruct (decide (writeCursor m + 1 < capacity m)) as [Hlt'|Hge'].
    + rewrite Nat.mod_small by lia.
      replace (writeCursor m + 1) with (S (writeCursor m)) by lia.
      rewrite drop_insert_lt by lia.
      rewrite (take_S_r _ _ (mkSample v now)) by (apply list_lookup_insert_eq; lia).
      rewrite take_insert_ge by lia. by rewrite <- app_assoc.
    + replace (writeCursor m + 1) with (capacity m) by lia.
      rewrite Nat.Div0.mod_same, drop_0, take_0, app_nil_r.
      rewrite drop_ge by lia. simpl.
      rewrite <- (take_drop (writeCursor m) (<[writeCursor m:=mkSample v now]> (buffer m))).
      rewrite take_insert_ge by lia.
      f_equal.
      rewrite (drop_S _ (mkSample v now)) by (apply list_lookup_insert_eq; lia).
      rewrite drop_ge; [done|]. rewrite length_insert. lia.
Qed.

Lemma add_all_wf (xs : list (Z * V)) (m : @Metric V) : wf m -> wf (add_all m xs).
Proof.
  revert m. induction xs as [|x xs IH]; intros m Hwf; simpl; [done|].
  apply IH. by apply add_wf.
Qed.

Lemma add_all_capacity (xs : list (Z * V)) (m : @Metric V) :
  capacity (add_all m xs) = capacity m.
Proof.
  revert m. induction xs as [|x xs IH]; intros m; simpl; [done|].
  by rewrite IH.
Qed.

Lemma chronological_add_all (xs : list (Z * V)) (m : @Metric V) :
  wf m ->
  chronological (add_all m xs)
  = lastn (capacity m) (chronological m ++ map sample_of xs).
Proof.
  revert m. induction xs as [|x xs IH]; intros m Hwf; simpl.
  - rewrite app_nil_r. rewrite lastn_all; [done|].
    rewrite chronological_length by done. by destruct Hwf.
  - rewrite IH by (by apply add_wf).
    rewrite chronological_add by done. simpl.
    rewrite lastn_app_lastn. rewrite <- app_assoc. done.
Qed.

Lemma lastn_min {A} k (l : list A) : lastn (length l `min` k) l = lastn k l.
Proof.
  unfold lastn. f_equal. lia.
Qed.

(** C1: for every capacity [c > 0] and every sequence of appended samples,
    the metric can be created and the snapshot without point limit holds
    exactly [min n c] samples: the most recent [min n c] appended ones, in
    append order, with their values. *)
Theorem snapshot_most_recent (n : string) (c : Z) (xs : list (Z * V)) :
  (0 < c)%Z ->
  exists m : @Metric V,
    create v0 n c = inl m
    /\ length (snapshot None (add_all m xs)) = length xs `min` Z.to_nat c
    /\ snapshot None (add_all m xs)
       = lastn (length xs `min` Z.to_nat c) (map sample_of xs)
    /\ map value (snapshot None (add_all m xs))
       = lastn (length xs `min` Z.to_nat c) (map snd xs).
Proof.
  intros Hc. destruct (create v0 n c) as [m|e] eqn:Hm.
  2: { unfold create in Hm. destruct (Z.leb_spec c 0); [lia|done]. }
  destruct (create_wf _ _ _ Hm) as (Hwf & Hcap & Hcnt).
  exists m. split; [done|].
  assert (Hnil : chronological m = []).
  { apply length_zero_iff_nil. by rewrite chronological_length. }
  assert (Hsnap : snapshot None (add_all m xs) = lastn (Z.to_nat c) (map sample_of xs)).
  { unfold snapshot. rewrite chronological_add_all by done.
    by rewrite Hnil, Hcap. }
  rewrite Hsnap. split; [|split].
  - by rewrite lastn_length, length_map.
  - by rewrite <- (length_map sample_of xs), lastn_min.
  - rewrite <- (length_map snd xs), lastn_min.
    unfold lastn. rewrite <- skipn_map, !length_map. f_equal.
    by rewrite map_map.
Qed.

End Facts.

(** Capacity 3 and the values 68, 49, 2, 11: the snapshot is 49, 2, 11. *)
Lemma snapshot_most_recent_witness :
  exists m : @Metric Z,
    create 0%Z "CPU1" 3 = inl m
    /\ map value (snapshot None
         (add_all m [(1, 68); (2, 49); (3, 2); (4, 11)]%Z)) = [49; 2; 11]%Z.
Proof.
  destruct (snapshot_most_recent 0%Z "CPU1" 3
              [(1, 68); (2, 49); (3, 2); (4, 11)]%Z ltac:(lia))
    as (m & Hm & _ & _ & Hv).
  exists m. split; [exact Hm | exact Hv].
Defined.

End MetricStoreFacts.

(** * Properties of the HTTP backend *)

Module HttpFacts.
Import Http.

Lemma append_empty_r (s : string) : s +:+ "" = s.
Proof.
  induction s as [|c s IH]; [done|].
  change (String c (s +:+ "") = String c s). by rewrite IH.
Qed.

Ltac run :=
  unfold mbind, M_bind, ret, mret, M_ret, log_Println, log_Printf,
         os_Stderr_Write, w_Write, w_WriteHeader, panic; cbn.

Section Handlers.
Variable json_Unmarshal : string -> Query + string.
Variable json_Marshal : Value -> string + string.
Variable clock : nat -> Z.

#[local] Abbreviation queryHandler := (queryHandler json_Unmarshal json_Marshal clock).
#[local] Abbreviation sendTimeseries := (sendTimeseries json_Marshal clock).
#[local] Abbreviation sendTable := (sendTable json_Marshal clock).
#[local] Abbreviation millis := (millis clock).

(** [sendTimeseries] returns, having read the clock four times; the
    writer holds the encoding, or the error envelope under status 400. *)
Lemma sendTimeseries_run q t rest w log k :
  Targets q = t :: rest ->
  exists log',
    sendTimeseries q (mkWorld w log k)
    = Done tt (mkWorld
        match json_Marshal (to_value [timeseriesObject clock (Target t) k]) with
        | inl b => Write b w
        | inr e => Write "" (Write (errorEnvelope "cannot marshal response" e)
                                   (WriteHeader StatusBadRequest w))
        end log' (k + 4)).
Proof.
  intros Ht. unfold sendTimeseries, Http.sendTimeseries, index. rewrite Ht. cbn.
  unfold nowMillis, time_Now_UnixNano. run.
  unfold timeseriesObject, Http.millis.
  replace (k + 1) with (S k) by lia.
  replace (k + 2) with (S (S k)) by lia.
  replace (k + 3) with (S (S (S k))) by lia.
  replace (k + 4) with (S (S (S (S k)))) by lia.
  destruct (json_Marshal _) as [b|e]; run; [by eexists|].
  unfold writeError. run. by eexists.
Qed.

Lemma sendTable_run q w log k :
  exists log',
    sendTable q (mkWorld w log k)
    = Done tt (mkWorld
        match json_Marshal (to_value [tableObject clock k]) with
        | inl b => Write b w
        | inr e => Write "" (Write (errorEnvelope "cannot marshal response" e)
                                   (WriteHeader StatusBadRequest w))
        end log' (k + 4)).
Proof.
  unfold sendTable, Http.sendTable.
  unfold nowMillis, time_Now_UnixNano. run.
  unfold tableObject, Http.millis.
  replace (k + 1) with (S k) by lia.
  replace (k + 2) with (S (S k)) by lia.
  replace (k + 3) with (S (S (S k))) by lia.
  replace (k + 4) with (S (S (S (S k)))) by lia.
  destruct (json_Marshal _) as [b|e]; run; [by eexists|].
  unfold writeError. run. by eexists.
Qed.

Lemma reply_after_send res log k :
  reply_of (Done tt (mkWorld
    match res with
    | inl b => Write b freshWriter
    | inr e => Write "" (Write (errorEnvelope "cannot marshal response" e)
                               (WriteHeader StatusBadRequest freshWriter))
    end log k)) = sent res.
Proof.
  destruct res as [b|e]; cbn; [done|].
  unfold Write, WriteHeader; cbn. by rewrite append_empty_r.
Qed.

Lemma sendTimeseries_reply q t rest log k :
  Targets q = t :: rest ->
  reply_of (sendTimeseries q (start log k))
  = sent (json_Marshal (to_value [timeseriesObject clock (Target t) k])).
Proof.
  intros Ht. unfold start.
  destruct (sendTimeseries_run q t rest freshWriter log k Ht) as [log' ->].
  apply reply_after_send.
Qed.

Lemma sendTable_reply q log k :
  reply_of (sendTable q (start log k))
  = sent (json_Marshal (to_value [tableObject clock k])).
Proof.
  unfold start. destruct (sendTable_run q freshWriter log k) as [log' ->].
  apply reply_after_send.
Qed.

(** The reply to a query whose body decodes and names at least one
    target is decided by the first target alone. *)
Lemma queryHandler_dispatch r q t rest log k :
  failure (Body r) = None ->
  json_Unmarshal (content (Body r)) = inl q ->
  Targets q = t :: rest ->
  serve queryHandler r log k =
    if String.eqb (Type_ t) "timeserie"
    then sent (json_Marshal (to_value [timeseriesObject clock (Target t) k]))
    else if String.eqb (Type_ t) "table"
    then sent (json_Marshal (to_value [tableObject clock k]))
    else Replied StatusOK "".
Proof.
  intros Hb Hq Ht. unfold serve, queryHandler, Http.queryHandler.
  rewrite Hb. run. rewrite Hq. unfold index. rewrite Ht. run.
  destruct (String.eqb (Type_ t) "timeserie").
  - by apply sendTimeseries_reply with (rest := rest).
  - destruct (String.eqb (Type_ t) "table"); [|done].
    apply sendTable_reply.
Qed.

Lemma queryHandler_unreadable r e log k :
  failure (Body r) = Some e ->
  serve queryHandler r log k
  = Replied StatusBadRequest (errorEnvelope "Cannot read request body" e).
Proof.
  intros Hb. unfold serve, queryHandler, Http.queryHandler. by rewrite Hb.
Qed.

Lemma queryHandler_undecodable r e log k :
  failure (Body r) = None ->
  json_Unmarshal (content (Body r)) = inr e ->
  serve queryHandler r log k
  = Replied StatusBadRequest (errorEnvelope "cannot unmarshal request body" e).
Proof.
  intros Hb Hq. unfold serve, queryHandler, Http.queryHandler.
  rewrite Hb. run. by rewrite Hq.
Qed.

Lemma queryHandler_no_target r q log k :
  failure (Body r) = None ->
  json_Unmarshal (content (Body r)) = inl q ->
  Targets q = [] ->
  serve queryHandler r log k
  = Aborted "runtime error: index out of range [0] with length 0".
Proof.
  intros Hb Hq Ht. unfold serve, queryHandler, Http.queryHandler.
  rewrite Hb. run. rewrite Hq. unfold index. by rewrite Ht.
Qed.


Lemma mux_query r :
  URL_Path r = "/query" ->
  mux_Handler (DefaultServeMux json_Unmarshal json_Marshal clock) r = queryHandler.
Proof. intros Hp. unfold mux_Handler. by rewrite Hp. Qed.

Lemma int64_id z : (- 2 ^ 63 <= z < 2 ^ 63)%Z -> int64 z = z.
Proof. intros Hz. unfold int64. rewrite Z.mod_small; lia. Qed.

(** A millisecond count derived from an [int64] is below 2^53 in
    magnitude: its conversion to a double is exact. *)
Lemma millis_exact k : (- 2 ^ 53 < f64_int (millis k) < 2 ^ 53)%Z.
Proof.
  unfold Http.millis, float64_of_int64; cbn [f64_int].
  assert (Hr : (- 2 ^ 63 <= int64 (clock k) < 2 ^ 63)%Z).
  { unfold int64. pose proof (Z.mod_pos_bound (clock k + 2 ^ 63) (2 ^ 64)). lia. }
  assert (Hq : (- 9223372036855 < int64 (clock k) ÷ 1000000 < 9223372036855)%Z).
  { split.
    - apply Z.lt_le_trans with (- 9223372036854)%Z; [lia|].
      change (- 9223372036854)%Z with ((- 2 ^ 63) ÷ 1000000)%Z.
      apply Z.quot_le_mono; lia.
    - apply Z.le_lt_trans with 9223372036854%Z; [|lia].
      change 9223372036854%Z with ((2 ^ 63) ÷ 1000000)%Z.
      apply Z.quot_le_mono; lia. }
  rewrite int64_id; lia.
Qed.

Lemma millis_mono i j :
  (- 2 ^ 63 <= clock i)%Z ->
  (clock i <= clock j)%Z ->
  (clock j < 2 ^ 63)%Z ->
  (f64_int (millis i) <= f64_int (millis j))%Z.
Proof.
  intros Hlo Hle Hhi. unfold Http.millis, float64_of_int64; cbn [f64_int].
  rewrite !(int64_id (clock _)) by lia.
  assert (Hq : forall z, (- 2 ^ 63 <= z < 2 ^ 63 -> - 2 ^ 63 <= z ÷ 1000000 < 2 ^ 63)%Z).
  { intros z Hz. split.
    - apply Z.le_trans with ((- 2 ^ 63) ÷ 1000000)%Z; [done|].
      apply Z.quot_le_mono; lia.
    - apply Z.le_lt_trans with ((2 ^ 63) ÷ 1000000)%Z; [|done].
      apply Z.quot_le_mono; lia. }
  rewrite !int64_id by (apply Hq; lia).
  apply Z.quot_le_mono; lia.
Qed.

(** C2 (as the handler has it): a query for target "CPU1" of type
    "timeserie" is answered with status 200 and the encoding of exactly one
    object with target "CPU1" whose datapoints are the four fixed pairs
    [68,t1], [49,t2], [2,t3], [11,t4] -- no metric is consulted and the
    value 68 is part of the answer -- where t1..t4 are the millisecond
    stamps of four successive clock readings; the stamps do not decrease
    when the clock does not go back. *)
Theorem cpu1_timeserie_fixed_points r q t rest log k bytes :
  failure (Body r) = None ->
  json_Unmarshal (content (Body r)) = inl q ->
  Targets q = t :: rest ->
  Target t = "CPU1" ->
  Type_ t = "timeserie" ->
  json_Marshal (to_value
    [ mkTimeseriesResponse "CPU1"
        [ [F64 68; millis k]; [F64 49; millis (k + 1)];
          [F64 2; millis (k + 2)]; [F64 11; millis (k + 3)] ] ]) = inl bytes ->
  serve queryHandler r log k = Replied StatusOK bytes
  /\ ((- 2 ^ 63 <= clock k <= clock (k + 1))%Z ->
      (clock (k + 1) <= clock (k + 2) <= clock (k + 3))%Z ->
      (clock (k + 3) < 2 ^ 63)%Z ->
      (f64_int (millis k) <= f64_int (millis (k + 1))
       <= f64_int (millis (k + 2)))%Z
      /\ (f64_int (millis (k + 2)) <= f64_int (millis (k + 3)))%Z).
Proof.
  intros Hb Hq Ht Hname Hty Hm. split.
  - rewrite (queryHandler_dispatch r q t rest log k Hb Hq Ht).
    rewrite Hty, Hname. cbn. unfold timeseriesObject. by rewrite Hm.
  - intros H1 H2 H3. repeat split; apply millis_mono; lia.
Qed.

(** C3 (as the handler has it): target names are not looked up anywhere.
    For every query whose first target has type "timeserie", whatever name
    it carries, the request succeeds with status 200 and the fixed series
    labelled with that very name. *)
Theorem any_target_name_is_served r q t rest log k bytes :
  failure (Body r) = None ->
  json_Unmarshal (content (Body r)) = inl q ->
  Targets q = t :: rest ->
  Type_ t = "timeserie" ->
  json_Marshal (to_value [timeseriesObject clock (Target t) k]) = inl bytes ->
  serve queryHandler r log k = Replied StatusOK bytes
  /\ TS_Target (timeseriesObject clock (Target t) k) = Target t.
Proof.
  intros Hb Hq Ht Hty Hm. split; [|done].
  rewrite (queryHandler_dispatch r q t rest log k Hb Hq Ht).
  rewrite Hty. cbn. by rewrite Hm.
Qed.

(** C4 (as the handler has it): for every query whose first target's type
    is neither "timeserie" nor "table", the handler writes nothing and
    returns; the client receives status 200 with an empty body. *)
Theorem other_format_empty_ok r q t rest log k :
  failure (Body r) = None ->
  json_Unmarshal (content (Body r)) = inl q ->
  Targets q = t :: rest ->
  Type_ t <> "timeserie" ->
  Type_ t <> "table" ->
  serve queryHandler r log k = Replied StatusOK "".
Proof.
  intros Hb Hq Ht Hts Htb.
  rewrite (queryHandler_dispatch r q t rest log k Hb Hq Ht).
  destruct (String.eqb_spec (Type_ t) "timeserie"); [done|].
  destruct (String.eqb_spec (Type_ t) "table"); done.
Qed.

(** C6 (as the handler has it): for every query with one or more targets
    whose first target has a supported type, the response is the encoding
    of a one-element array: the object built for the first target. The
    further targets have no part in it. *)
Theorem one_object_for_first_target r q t rest log k :
  failure (Body r) = None ->
  json_Unmarshal (content (Body r)) = inl q ->
  Targets q = t :: rest ->
  (Type_ t = "timeserie" ->
   serve queryHandler r log k
   = sent (json_Marshal (VSlice [to_value (timeseriesObject clock (Target t) k)])))
  /\ (Type_ t = "table" ->
      serve queryHandler r log k
      = sent (json_Marshal (VSlice [to_value (tableObject clock k)]))).
Proof.
  intros Hb Hq Ht.
  rewrite (queryHandler_dispatch r q t rest log k Hb Hq Ht).
  split; intros ->; done.
Qed.

(** C7 (as the handler has it): for every query whose first target has
    type "table", the response object carries the column schema
    (Name:string, Value:number, Time:time), the type "table" and four fixed
    rows, named Alpha, Bravo, Charlie and Delta whatever metric is queried,
    with the values 68, 49, 2, 11 and the millisecond stamps of four
    successive clock readings. *)
Theorem table_fixed_rows r q t rest log k bytes :
  failure (Body r) = None ->
  json_Unmarshal (content (Body r)) = inl q ->
  Targets q = t :: rest ->
  Type_ t = "table" ->
  json_Marshal (to_value
    [ mkTableResponse
        [ mkColumn "Name" "string"; mkColumn "Value" "number";
          mkColumn "Time" "time" ]
        [ [CString "Alpha"; CInt 68; CFloat64 (millis k)];
          [CString "Bravo"; CInt 49; CFloat64 (millis (k + 1))];
          [CString "Charlie"; CInt 2; CFloat64 (millis (k + 2))];
          [CString "Delta"; CInt 11; CFloat64 (millis (k + 3))] ]
        "table" ]) = inl bytes ->
  serve queryHandler r log k = Replied StatusOK bytes.
Proof.
  intros Hb Hq Ht Hty Hm.
  rewrite (queryHandler_dispatch r q t rest log k Hb Hq Ht).
  rewrite Hty. cbn. unfold tableObject. by rewrite Hm.
Qed.

(** The branch of the send functions for an encoder that fails: the
    function returns, and the writer holds status 400 and the error
    envelope. *)
Lemma marshal_failure_branch q t rest log k e :
  Targets q = t :: rest ->
  (json_Marshal (to_value [timeseriesObject clock (Target t) k]) = inr e ->
   exists s, sendTimeseries q (start log k) = Done tt s
     /\ writer s = mkWriter (Some StatusBadRequest)
                            (errorEnvelope "cannot marshal response" e))
  /\ (json_Marshal (to_value [tableObject clock k]) = inr e ->
      exists s, sendTable q (start log k) = Done tt s
        /\ writer s = mkWriter (Some StatusBadRequest)
                               (errorEnvelope "cannot marshal response" e)).
Proof.
  intros Ht. split; intros Hm; unfold start.
  - destruct (sendTimeseries_run q t rest freshWriter log k Ht) as [log' ->].
    rewrite Hm. eexists; split; [done|]. cbn.
    unfold Write, WriteHeader; cbn. by rewrite append_empty_r.
  - destruct (sendTable_run q freshWriter log k) as [log' ->].
    rewrite Hm. eexists; split; [done|]. cbn.
    unfold Write, WriteHeader; cbn. by rewrite append_empty_r.
Qed.


(** C10: two queries that decode and whose first targets agree in name and
    type receive the same reply when they meet the same clock readings,
    whatever else they say: further targets, the time range and
    maxDataPoints play no part. *)
Theorem reply_depends_on_first_target r1 r2 q1 q2 t1 t2 rest1 rest2 log1 log2 k1 k2 :
  (forall i, clock (k1 + i) = clock (k2 + i)) ->
  failure (Body r1) = None ->
  failure (Body r2) = None ->
  json_Unmarshal (content (Body r1)) = inl q1 ->
  json_Unmarshal (content (Body r2)) = inl q2 ->
  Targets q1 = t1 :: rest1 ->
  Targets q2 = t2 :: rest2 ->
  Target t1 = Target t2 ->
  Type_ t1 = Type_ t2 ->
  serve queryHandler r1 log1 k1 = serve queryHandler r2 log2 k2.
Proof.
  intros Hclk Hb1 Hb2 Hq1 Hq2 Ht1 Ht2 Hname Hty.
  rewrite (queryHandler_dispatch r1 q1 t1 rest1 log1 k1 Hb1 Hq1 Ht1).
  rewrite (queryHandler_dispatch r2 q2 t2 rest2 log2 k2 Hb2 Hq2 Ht2).
  rewrite Hname, Hty.
  assert (Hms : forall i, millis (k1 + i) = millis (k2 + i)).
  { intros i. unfold Http.millis. by rewrite Hclk. }
  assert (Hms0 : millis k1 = millis k2).
  { rewrite <- (Nat.add_0_r k1), <- (Nat.add_0_r k2). apply Hms. }
  unfold timeseriesObject, tableObject. by rewrite !Hms, Hms0.
Qed.

End Handlers.
End HttpFacts.

(** * The server on concrete requests *)

Module HttpRuns.
Import Http GoJSON Run HttpFacts.

(** The reply to the plain CPU1 query, byte for byte. *)
Example cpu1_timeserie_reply :
  server (frozen an_instant) (post "/query" body_cpu1_timeserie)
  = Replied 200 (json_text
      ("[{'target':'CPU1','datapoints':[[68,1509700000123],[49,1509700000123],"
       +:+ "[2,1509700000123],[11,1509700000123]]}]")).
Proof. vm_compute. reflexivity. Qed.

Example cpu1_table_reply :
  server (frozen an_instant) (post "/query" body_cpu1_table)
  = Replied 200 (json_text
      ("[{'columns':[{'text':'Name','type':'string'},{'text':'Value','type':'number'},"
       +:+ "{'text':'Time','type':'time'}],'rows':[['Alpha',68,1509700000123],"
       +:+ "['Bravo',49,1509700000123],['Charlie',2,1509700000123],"
       +:+ "['Delta',11,1509700000123]],'type':'table'}]")).
Proof. vm_compute. reflexivity. Qed.

(** An empty body and a body that is not JSON are turned down with status
    400 and the decoder's message. *)
Example empty_body_reply :
  server (frozen an_instant) (post "/query" "")
  = Replied 400 (json_text
      "{'error': 'cannot unmarshal request body: unexpected end of JSON input'}").
Proof. vm_compute. reflexivity. Qed.

Example garbage_body_reply :
  server (frozen an_instant) (post "/query" "hello")
  = Replied 400 (errorEnvelope "cannot unmarshal request body"
                   "invalid character 'h' looking for beginning of value").
Proof. vm_compute. reflexivity. Qed.

(** C2, as stated, fails: the reply to the CPU1 query does not consist of
    the three pairs for 49, 2 and 11; it starts with the pair for 68. *)
Lemma cpu1_timeserie_keeps_68 :
  ~ (exists body p2 p3 p4,
       server (frozen an_instant) (post "/query" body_cpu1_timeserie)
       = Replied StatusOK body
       /\ parse body
          = inr (JArray [JObject
              [("target", JString "CPU1");
               ("datapoints",
                JArray [JArray [JNumber "49"; p2]; JArray [JNumber "2"; p3];
                        JArray [JNumber "11"; p4]])]])).
Proof.
  intros (body & p2 & p3 & p4 & Hr & Hp).
  vm_compute in Hr. injection Hr as <-.
  vm_compute in Hp. discriminate Hp.
Qed.

(** With the clock standing still the four stamps are equal, not
    strictly increasing. *)
Example frozen_clock_equal_stamps :
  millis (frozen an_instant) 0 = millis (frozen an_instant) 1.
Proof. reflexivity. Qed.

Lemma cpu1_timeserie_fixed_points_witness :
  serve (queryHandler Unmarshal Marshal (ticking an_instant 400000))
        (post "/query" body_cpu1_timeserie) [] 0
  = Replied StatusOK (json_text
      ("[{'target':'CPU1','datapoints':[[68,1509700000123],[49,1509700000123],"
       +:+ "[2,1509700000124],[11,1509700000124]]}]"))
  /\ (f64_int (millis (ticking an_instant 400000) 0)
      <= f64_int (millis (ticking an_instant 400000) 1)
      <= f64_int (millis (ticking an_instant 400000) 2))%Z.
Proof.
  destruct (cpu1_timeserie_fixed_points Unmarshal Marshal (ticking an_instant 400000)
    (post "/query" body_cpu1_timeserie)
    (query_of [mkQueryTarget "CPU1" "" "timeserie"])
    (mkQueryTarget "CPU1" "" "timeserie") [] [] 0
    (json_text
      ("[{'target':'CPU1','datapoints':[[68,1509700000123],[49,1509700000123],"
       +:+ "[2,1509700000124],[11,1509700000124]]}]")))
    as [Hreply Hstamps]; try (vm_compute; reflexivity).
  split; [exact Hreply|].
  apply Hstamps; unfold ticking, an_instant; simpl; lia.
Defined.

(** C3, as stated, fails: nothing is registered under "CPU9", and the
    query for it is not turned down with a client error. *)
Lemma unregistered_target_succeeds :
  ~ (exists code body,
       server (frozen an_instant) (post "/query" body_cpu9_timeserie)
       = Replied code body
       /\ (400 <= code < 500)%Z).
Proof.
  intros (code & body & Hr & Hcode).
  vm_compute in Hr. injection Hr as <- <-. lia.
Qed.

Example cpu9_timeserie_reply :
  server (frozen an_instant) (post "/query" body_cpu9_timeserie)
  = Replied 200 (json_text
      ("[{'target':'CPU9','datapoints':[[68,1509700000123],[49,1509700000123],"
       +:+ "[2,1509700000123],[11,1509700000123]]}]")).
Proof. vm_compute. reflexivity. Qed.

Lemma any_target_name_is_served_witness :
  serve (queryHandler Unmarshal Marshal (frozen an_instant))
        (post "/query" body_cpu9_timeserie) [] 0
  = Replied StatusOK (json_text
      ("[{'target':'CPU9','datapoints':[[68,1509700000123],[49,1509700000123],"
       +:+ "[2,1509700000123],[11,1509700000123]]}]")).
Proof.
  apply (any_target_name_is_served Unmarshal Marshal (frozen an_instant)
    (post "/query" body_cpu9_timeserie)
    (query_of [mkQueryTarget "CPU9" "" "timeserie"])
    (mkQueryTarget "CPU9" "" "timeserie") [] [] 0);
  vm_compute; reflexivity.
Defined.

(** C4, as stated, fails: a query of type "heatmap" is not answered with
    an error. *)
Lemma unsupported_format_succeeds :
  ~ (exists code body,
       server (frozen an_instant) (post "/query" body_cpu1_heatmap)
       = Replied code body
       /\ (400 <= code)%Z).
Proof.
  intros (code & body & Hr & Hcode).
  vm_compute in Hr. injection Hr as <- <-. lia.
Qed.

Lemma other_format_empty_ok_witness :
  serve (queryHandler Unmarshal Marshal (frozen an_instant))
        (post "/query" body_cpu1_heatmap) [] 0
  = Replied StatusOK "".
Proof.
  apply (other_format_empty_ok Unmarshal Marshal (frozen an_instant)
    (post "/query" body_cpu1_heatmap)
    (query_of [mkQueryTarget "CPU1" "" "heatmap"])
    (mkQueryTarget "CPU1" "" "heatmap") []);
  first [ vm_compute; reflexivity | discriminate ].
Defined.

(** C5: a body without targets decodes, and the handler then indexes the
    empty target list: it panics, and the client receives no reply at
    all. *)
Theorem missing_targets_panic :
  server (frozen an_instant) (post "/query" "{}")
  = Aborted "runtime error: index out of range [0] with length 0"
  /\ server (frozen an_instant) (post "/query" (json_text "{'targets':[]}"))
     = Aborted "runtime error: index out of range [0] with length 0"
  /\ server (frozen an_instant) (post "/query" "null")
     = Aborted "runtime error: index out of range [0] with length 0".
Proof. repeat split; vm_compute; reflexivity. Qed.

(** C6, as stated, fails: two targets are requested, and the reply is not
    an array of two objects. *)
Lemma two_targets_one_object :
  ~ (exists body objs,
       server (frozen an_instant) (post "/query" body_two_targets)
       = Replied StatusOK body
       /\ parse body = inr (JArray objs)
       /\ length objs = 2).
Proof.
  intros (body & objs & Hr & Hp & Hlen).
  vm_compute in Hr. injection Hr as <-.
  vm_compute in Hp. injection Hp as <-. discriminate Hlen.
Qed.

Lemma one_object_for_first_target_witness :
  serve (queryHandler Unmarshal Marshal (frozen an_instant))
        (post "/query" body_two_targets) [] 0
  = Replied StatusOK (json_text
      ("[{'target':'CPU1','datapoints':[[68,1509700000123],[49,1509700000123],"
       +:+ "[2,1509700000123],[11,1509700000123]]}]")).
Proof.
  refine (eq_trans
    (proj1 (one_object_for_first_target Unmarshal Marshal (frozen an_instant)
      (post "/query" body_two_targets)
      (query_of [mkQueryTarget "CPU1" "" "timeserie";
                 mkQueryTarget "CPU2" "" "timeserie"])
      (mkQueryTarget "CPU1" "" "timeserie")
      [mkQueryTarget "CPU2" "" "timeserie"] [] 0 _ _ _) _) _);
  vm_compute; reflexivity.
Defined.

(** C7, as stated, fails: the rows of the reply to the table query for
    "CPU1" do not list the name "CPU1"; the first one is named "Alpha". *)
Lemma table_rows_not_named_after_metric :
  ~ (exists body cols rows ty,
       server (frozen an_instant) (post "/query" body_cpu1_table)
       = Replied StatusOK body
       /\ parse body
          = inr (JArray [JObject [("columns", cols); ("rows", JArray rows);
                                  ("type", ty)]])
       /\ forall row, In row rows ->
            exists v ts, row = JArray [JString "CPU1"; v; ts]).
Proof.
  intros (body & cols & rows & ty & Hr & Hp & Hrows).
  vm_compute in Hr. injection Hr as <-.
  vm_compute in Hp. injection Hp as <- <- <-.
  destruct (Hrows _ (or_introl eq_refl)) as (v & ts & Hrow).
  discriminate Hrow.
Qed.

Lemma table_fixed_rows_witness :
  serve (queryHandler Unmarshal Marshal (frozen an_instant))
        (post "/query" body_cpu1_table) [] 0
  = Replied StatusOK (json_text
      ("[{'columns':[{'text':'Name','type':'string'},{'text':'Value','type':'number'},"
       +:+ "{'text':'Time','type':'time'}],'rows':[['Alpha',68,1509700000123],"
       +:+ "['Bravo',49,1509700000123],['Charlie',2,1509700000123],"
       +:+ "['Delta',11,1509700000123]],'type':'table'}]")).
Proof.
  apply (table_fixed_rows Unmarshal Marshal (frozen an_instant)
    (post "/query" body_cpu1_table)
    (query_of [mkQueryTarget "CPU1" "" "table"])
    (mkQueryTarget "CPU1" "" "table") [] [] 0);
  vm_compute; reflexivity.
Defined.

(** A request for another path in canonical form, with a method and a
    body of its own, goes to the root handler. *)
Example delete_search_reply :
  ListenAndServe Unmarshal Marshal (frozen an_instant)
    (mkRequest "DELETE" "/search" (mkBody "{not json" None)) [] 0
  = Replied StatusOK "".
Proof. vm_compute. reflexivity. Qed.

(** The dashboard's full query, served after four clock readings, and
    the plain CPU1 query receive the same reply. *)
Lemma reply_depends_on_first_target_witness :
  serve (queryHandler Unmarshal Marshal (frozen an_instant))
        (post "/query" body_cpu1_timeserie) [] 0
  = serve (queryHandler Unmarshal Marshal (frozen an_instant))
          (post "/query" body_full_query) ["earlier request" +:+ newline] 4.
Proof.
  apply (reply_depends_on_first_target Unmarshal Marshal (frozen an_instant)
    (post "/query" body_cpu1_timeserie) (post "/query" body_full_query)
    (query_of [mkQueryTarget "CPU1" "" "timeserie"])
    (mkQuery 1
       (mkQueryRange (mkTime "2017-10-30T06:33:44.866Z")
                     (mkTime "2017-10-30T12:33:44.866Z")
                     (mkQueryRaw "now-6h" "now"))
       (mkQueryRaw "" "") "30s" 30000
       [mkQueryTarget "CPU1" "A" "timeserie"; mkQueryTarget "CPU2" "B" "table"]
       "" 550)
    (mkQueryTarget "CPU1" "" "timeserie") (mkQueryTarget "CPU1" "A" "timeserie")
    [] [mkQueryTarget "CPU2" "B" "table"]);
  first [ intros i; reflexivity | vm_compute; reflexivity ].
Defined.

End HttpRuns.

(** * Further properties of the server *)

Module ProcessFacts.
Import Http Process.

(** X10: when the server ends with an error, [main] logs the error and
    the process exits with status 1; the deferred "stop grafanago" is not
    logged. Only a server that ends without error lets [main] return, and
    "stop grafanago" is then the last line. *)
Theorem main_skips_stop_on_error (served : list string) (out : list string) :
  (forall e,
     run (main served (Some e)) out
     = (out ++ ["start grafanago" +:+ newline] ++ served ++ [e +:+ newline],
        Some 1%Z))
  /\ run (main served None) out
     = (out ++ ["start grafanago" +:+ newline] ++ served
            ++ ["stop grafanago" +:+ newline], None).
Proof.
  split; [intros e|];
    unfold run, main, log_Fatalln, log_Println, os_Exit, defer,
           http_ListenAndServe, mbind, P_bind, mret, P_ret, println; cbn;
    rewrite <- !app_assoc; reflexivity.
Qed.

End ProcessFacts.

Module HttpMore.
Import Http HttpFacts Observations.

Lemma append_assoc (a b c : string) : (a +:+ b) +:+ c = a +:+ (b +:+ c).
Proof.
  induction a as [|x a IH]; [done|].
  change (String x ((a +:+ b) +:+ c) = String x (a +:+ (b +:+ c))).
  by rewrite IH.
Qed.

Section Handlers.
Variable json_Unmarshal : string -> Query + string.
Variable json_Marshal : Value -> string + string.
Variable clock : nat -> Z.

#[local] Abbreviation queryHandler := (queryHandler json_Unmarshal json_Marshal clock).
#[local] Abbreviation sendTimeseries := (sendTimeseries json_Marshal clock).
#[local] Abbreviation sendTable := (sendTable json_Marshal clock).
#[local] Abbreviation millis := (millis clock).

(** The reply of [queryHandler], case by case. *)
Lemma queryHandler_reply r log k :
  serve queryHandler r log k =
    match failure (Body r) with
    | Some e => Replied StatusBadRequest (errorEnvelope "Cannot read request body" e)
    | None =>
      match json_Unmarshal (content (Body r)) with
      | inr e => Replied StatusBadRequest
                   (errorEnvelope "cannot unmarshal request body" e)
      | inl q =>
        match Targets q with
        | [] => Aborted "runtime error: index out of range [0] with length 0"
        | t :: _ =>
          if String.eqb (Type_ t) "timeserie"
          then sent (json_Marshal (to_value [timeseriesObject clock (Target t) k]))
          else if String.eqb (Type_ t) "table"
          then sent (json_Marshal (to_value [tableObject clock k]))
          else Replied StatusOK ""
        end
      end
    end.
Proof.
  destruct (failure (Body r)) as [e|] eqn:Hb.
  { by apply queryHandler_unreadable. }
  destruct (json_Unmarshal (content (Body r))) as [q|e] eqn:Hq.
  2: { by apply queryHandler_undecodable. }
  destruct (Targets q) as [|t rest] eqn:Ht.
  { by apply queryHandler_no_target with (q := q). }
  by apply queryHandler_dispatch with (q := q) (rest := rest).
Qed.

(** The worlds the send functions leave: the log has grown, the clock has
    been read four times, and the writer has grown by the encoding or by
    the error envelope. *)
Lemma sendTimeseries_world q t rest w log k :
  Targets q = t :: rest ->
  exists extra,
    sendTimeseries q (mkWorld w log k)
    = Done tt (mkWorld
        match json_Marshal (to_value [timeseriesObject clock (Target t) k]) with
        | inl b => Write b w
        | inr e => Write "" (Write (errorEnvelope "cannot marshal response" e)
                                   (WriteHeader StatusBadRequest w))
        end (log ++ extra) (k + 4)).
Proof.
  intros Ht. unfold sendTimeseries, Http.sendTimeseries, index. rewrite Ht. cbn.
  unfold nowMillis, time_Now_UnixNano. run.
  unfold timeseriesObject, Http.millis.
  replace (k + 1) with (S k) by lia.
  replace (k + 2) with (S (S k)) by lia.
  replace (k + 3) with (S (S (S k))) by lia.
  replace (k + 4) with (S (S (S (S k)))) by lia.
  destruct (json_Marshal _) as [b|e]; run.
  - eexists. rewrite <- !app_assoc. reflexivity.
  - unfold writeError. run. eexists. rewrite <- !app_assoc. reflexivity.
Qed.

Lemma sendTable_world q w log k :
  exists extra,
    sendTable q (mkWorld w log k)
    = Done tt (mkWorld
        match json_Marshal (to_value [tableObject clock k]) with
        | inl b => Write b w
        | inr e => Write "" (Write (errorEnvelope "cannot marshal response" e)
                                   (WriteHeader StatusBadRequest w))
        end (log ++ extra) (k + 4)).
Proof.
  unfold sendTable, Http.sendTable.
  unfold nowMillis, time_Now_UnixNano. run.
  unfold tableObject, Http.millis.
  replace (k + 1) with (S k) by lia.
  replace (k + 2) with (S (S k)) by lia.
  replace (k + 3) with (S (S (S k))) by lia.
  replace (k + 4) with (S (S (S (S k)))) by lia.
  destruct (json_Marshal _) as [b|e]; run.
  - eexists. rewrite <- !app_assoc. reflexivity.
  - unfold writeError. run. eexists. rewrite <- !app_assoc. reflexivity.
Qed.

Lemma grows_refl s : grows s s.
Proof.
  split.
  - exists []. by rewrite app_nil_r.
  - exists "". by rewrite append_empty_r.
Qed.

Lemma body_after_send w res :
  exists more,
    body match res with
         | inl b => Write b w
         | inr e => Write "" (Write (errorEnvelope "cannot marshal response" e)
                                    (WriteHeader StatusBadRequest w))
         end = body w +:+ more.
Proof.
  destruct res as [b|e]; cbn.
  - by eexists.
  - exists (errorEnvelope "cannot marshal response" e).
    unfold WriteHeader. destruct (status w); cbn; by rewrite append_empty_r.
Qed.


(** X1: whatever the request, the decoder, the encoder and the clock,
    [queryHandler] ends in one of three ways: status 200, status 400, or
    the index panic. No other status is ever sent. *)
Theorem query_reply_is_200_400_or_panic r log k :
  (exists b, serve queryHandler r log k = Replied StatusOK b)
  \/ (exists b, serve queryHandler r log k = Replied StatusBadRequest b)
  \/ serve queryHandler r log k
     = Aborted "runtime error: index out of range [0] with length 0".
Proof.
  rewrite queryHandler_reply.
  destruct (failure (Body r)); [right; left; by eexists|].
  destruct (json_Unmarshal _) as [q|e]; [|right; left; by eexists].
  destruct (Targets q) as [|t rest]; [by right; right|].
  destruct (String.eqb (Type_ t) "timeserie").
  { destruct (json_Marshal _); cbn; [left|right; left]; by eexists. }
  destruct (String.eqb (Type_ t) "table").
  { destruct (json_Marshal _); cbn; [left|right; left]; by eexists. }
  left. by eexists.
Qed.

(** X2: [queryHandler] panics exactly when the body can be read and
    decodes to a query without targets. *)
Theorem query_panics_iff_no_target r log k :
  (exists msg, serve queryHandler r log k = Aborted msg)
  <-> failure (Body r) = None
      /\ exists q, json_Unmarshal (content (Body r)) = inl q /\ Targets q = [].
Proof.
  rewrite queryHandler_reply. split.
  - intros [msg H].
    destruct (failure (Body r)) eqn:Hb; [done|]. split; [done|].
    destruct (json_Unmarshal _) as [q|e] eqn:Hq; [|done].
    exists q. split; [done|].
    destruct (Targets q) as [|t rest] eqn:Ht; [done|]. exfalso.
    destruct (String.eqb (Type_ t) "timeserie").
    { destruct (json_Marshal _); discriminate H. }
    destruct (String.eqb (Type_ t) "table"); [|discriminate H].
    destruct (json_Marshal _); discriminate H.
  - intros (Hb & q & Hq & Ht). rewrite Hb, Hq, Ht. by eexists.
Qed.

(** X3: [queryHandler] answers with status 400 exactly when the body
    cannot be read, or does not decode, or the first target has a
    supported type and the encoder fails on the response. *)
Theorem query_bad_request_iff r log k :
  (exists b, serve queryHandler r log k = Replied StatusBadRequest b)
  <-> (exists e, failure (Body r) = Some e)
      \/ (failure (Body r) = None
          /\ exists e, json_Unmarshal (content (Body r)) = inr e)
      \/ (failure (Body r) = None
          /\ exists q t rest e,
               json_Unmarshal (content (Body r)) = inl q
               /\ Targets q = t :: rest
               /\ ((Type_ t = "timeserie"
                    /\ json_Marshal (to_value [timeseriesObject clock (Target t) k])
                       = inr e)
                   \/ (Type_ t = "table"
                       /\ json_Marshal (to_value [tableObject clock k]) = inr e))).
Proof.
  rewrite queryHandler_reply. split.
  - intros [b H].
    destruct (failure (Body r)) as [e|] eqn:Hb; [left; by eexists|].
    destruct (json_Unmarshal _) as [q|e] eqn:Hq;
      [|right; left; split; [done|by eexists]].
    destruct (Targets q) as [|t rest] eqn:Ht; [done|].
    right; right. split; [done|].
    destruct (String.eqb_spec (Type_ t) "timeserie") as [Hts|_].
    { destruct (json_Marshal _) as [b'|e] eqn:Hm; [discriminate H|].
      exists q, t, rest, e. split; [done|]. split; [done|]. by left. }
    destruct (String.eqb_spec (Type_ t) "table") as [Htb|_]; [|discriminate H].
    destruct (json_Marshal _) as [b'|e] eqn:Hm; [discriminate H|].
    exists q, t, rest, e. split; [done|]. split; [done|]. by right.
  - intros [[e Hb]|[[Hb [e Hq]]|[Hb (q & t & rest & e & Hq & Ht & Hm)]]].
    + rewrite Hb. by eexists.
    + rewrite Hb, Hq. by eexists.
    + rewrite Hb, Hq, Ht. destruct Hm as [[Hty Hm]|[Hty Hm]]; rewrite Hty; cbn.
      * rewrite Hm. by eexists.
      * rewrite Hm. by eexists.
Qed.

(** X4: a body that cannot be read is turned down at once: the handler
    returns with status 400 and the envelope naming the read error, having
    logged nothing, decoded nothing and left the clock alone. *)
Theorem unreadable_body_fails_fast r e log k :
  failure (Body r) = Some e ->
  queryHandler r (start log k)
  = Done tt (mkWorld
      (mkWriter (Some StatusBadRequest)
                (errorEnvelope "Cannot read request body" e))
      log k).
Proof.
  intros Hb. unfold queryHandler, Http.queryHandler. by rewrite Hb.
Qed.

(** X5: a body that does not decode is turned down with status 400, and
    the response body is exactly the envelope that carries the decoder's
    error text as it is. *)
Theorem undecodable_body_echoes_error r e log k :
  failure (Body r) = None ->
  json_Unmarshal (content (Body r)) = inr e ->
  serve queryHandler r log k
  = Replied StatusBadRequest
      ("{" +:+ dquote +:+ "error" +:+ dquote +:+ ": " +:+ dquote
       +:+ "cannot unmarshal request body" +:+ ": " +:+ e +:+ dquote +:+ "}").
Proof.
  intros Hb Hq. rewrite queryHandler_reply. by rewrite Hb, Hq.
Qed.

(** X6: the reply of [queryHandler] is decided by the request body and
    the clock: the method, the path and the log so far play no part. *)
Theorem query_reply_depends_on_body_only r1 r2 log1 log2 k :
  Body r1 = Body r2 ->
  serve queryHandler r1 log1 k = serve queryHandler r2 log2 k.
Proof.
  intros Hbody. rewrite !queryHandler_reply. by rewrite Hbody.
Qed.

(** X7: whatever the clock returns, a stamp is an integer of at most
    9223372036854 in magnitude, below 2^53: its conversion to [float64]
    is exact. *)
Theorem stamp_conversion_is_exact k :
  (- 9223372036854 <= f64_int (millis k) <= 9223372036854)%Z
  /\ (9223372036854 < 2 ^ 53)%Z.
Proof.
  split; [|done].
  unfold Http.millis, float64_of_int64; cbn [f64_int].
  assert (Hr : (- 2 ^ 63 <= int64 (clock k) < 2 ^ 63)%Z).
  { unfold int64. pose proof (Z.mod_pos_bound (clock k + 2 ^ 63) (2 ^ 64)). lia. }
  assert (Hq : (- 9223372036854 <= int64 (clock k) ÷ 1000000 <= 9223372036854)%Z).
  { split.
    - change (- 9223372036854)%Z with ((- 2 ^ 63) ÷ 1000000)%Z.
      apply Z.quot_le_mono; lia.
    - change 9223372036854%Z with ((2 ^ 63) ÷ 1000000)%Z.
      apply Z.quot_le_mono; lia. }
  rewrite int64_id; lia.
Qed.

(** X8: for a clock reading within the [int64] range, the stamp is the
    reading cut to whole milliseconds towards zero: it is less than one
    millisecond away from the reading, not after it for a reading from
    1970 on, and not before it for an earlier one. *)
Theorem stamp_truncates_towards_zero k :
  (- 2 ^ 63 <= clock k < 2 ^ 63)%Z ->
  let ms := f64_int (millis k) in
  (Z.abs (clock k - 1000000 * ms) < 1000000)%Z
  /\ (0 <= clock k -> 0 <= 1000000 * ms <= clock k)%Z
  /\ (clock k <= 0 -> clock k <= 1000000 * ms <= 0)%Z.
Proof.
  intros Hr. cbn zeta.
  unfold Http.millis, float64_of_int64; cbn [f64_int].
  rewrite (int64_id (clock k)) by done.
  assert (Hq : (- 2 ^ 63 <= clock k ÷ 1000000 < 2 ^ 63)%Z).
  { split.
    - apply Z.le_trans with ((- 2 ^ 63) ÷ 1000000)%Z; [done|].
      apply Z.quot_le_mono; lia.
    - apply Z.le_lt_trans with ((2 ^ 63) ÷ 1000000)%Z; [|done].
      apply Z.quot_le_mono; lia. }
  rewrite int64_id by done.
  pose proof (Z.quot_rem' (clock k) 1000000) as Hqr.
  destruct (Z.le_gt_cases 0 (clock k)) as [Hpos|Hneg].
  - pose proof (Z.rem_bound_pos (clock k) 1000000 Hpos ltac:(lia)).
    pose proof (Z.quot_pos (clock k) 1000000 Hpos ltac:(lia)). lia.
  - pose proof (Z.rem_bound_pos_neg (clock k) 1000000 ltac:(lia) ltac:(lia)) as Hb.
    assert (clock k ÷ 1000000 <= 0)%Z.
    { apply Z.le_trans with (0 ÷ 1000000)%Z; [|done]. apply Z.quot_le_mono; lia. }
    lia.
Qed.

(** X9: a handler only adds: whether [queryHandler] returns or panics, and
    whatever the writer held before, the log is the old log followed by
    new entries and the response body is the old body followed by new
    bytes; the root handler always returns and does the same. *)
Theorem handlers_only_add r s :
  match queryHandler r s with
  | Done _ s' | Panicked _ s' => grows s s'
  end
  /\ match rootHandler r s with
     | Done _ s' => grows s s'
     | Panicked _ _ => False
     end.
Proof.
  destruct s as [w log k]. split.
  - unfold queryHandler, Http.queryHandler.
    destruct (failure (Body r)) as [e|].
    { unfold writeError. run. split; cbn.
      - exists []. by rewrite app_nil_r.
      - unfold WriteHeader. destruct (status w); by eexists. }
    run. destruct (json_Unmarshal _) as [q|e].
    2: { unfold writeError. run. split; cbn.
         - by eexists.
         - unfold WriteHeader. destruct (status w); by eexists. }
    unfold index. destruct (Targets q) as [|t rest] eqn:Ht; run.
    { split; cbn.
      - by eexists.
      - exists "". by rewrite append_empty_r. }
    destruct (String.eqb (Type_ t) "timeserie").
    { destruct (sendTimeseries_world q t rest w
        ((log ++ [request_line r])
           ++ [join_args ["Sending response for target " +:+ Target t] +:+ newline])
        k Ht) as [extra Hrun].
      unfold request_line in Hrun. cbn in Hrun. rewrite Hrun.
      split; cbn.
      - eexists. rewrite <- !app_assoc. reflexivity.
      - apply body_after_send. }
    destruct (String.eqb (Type_ t) "table").
    { destruct (sendTable_world q w
        ((log ++ [request_line r])
           ++ [join_args ["Sending response for target " +:+ Target t] +:+ newline])
        k) as [extra Hrun].
      unfold request_line in Hrun. cbn in Hrun. rewrite Hrun.
      split; cbn.
      - eexists. rewrite <- !app_assoc. reflexivity.
      - apply body_after_send. }
    run. split; cbn.
    + eexists. rewrite <- !app_assoc. reflexivity.
    + exists "". by rewrite append_empty_r.
  - unfold rootHandler. run. split; cbn.
    + eexists. rewrite <- !app_assoc. reflexivity.
    + unfold WriteHeader. destruct (status w); cbn;
        exists ""; by rewrite append_empty_r.
Qed.

(** X11: a request for the path [/query] is answered by [queryHandler],
    whatever its method. *)
Theorem query_path_reaches_queryHandler r log k :
  URL_Path r = "/query" ->
  ListenAndServe json_Unmarshal json_Marshal clock r log k
  = serve queryHandler r log k.
Proof.
  intros Hp. unfold ListenAndServe. by rewrite mux_query.
Qed.


End Handlers.
End HttpMore.

Module EnvelopeFacts.
Import Http GoJSON Observations.

Local Open Scope N_scope.

Lemma list_ascii_app (a b : string) :
  list_ascii_of_string (a +:+ b) = list_ascii_of_string a ++ list_ascii_of_string b.
Proof.
  induction a as [|x a IH]; [done|].
  change (x :: list_ascii_of_string (a +:+ b)
          = x :: (list_ascii_of_string a ++ list_ascii_of_string b)).
  by rewrite IH.
Qed.

Lemma string_tail_plain (p : list ascii) :
  forall fuel acc rest,
    forallb plain p = true ->
    (length p < fuel)%nat ->
    string_tail fuel acc (p ++ "034"%char :: rest)
    = inr (string_of_list_ascii (rev acc ++ p), rest).
Proof.
  induction p as [|c p IH]; intros fuel acc rest Hp Hf.
  - destruct fuel as [|fuel]; [simpl in Hf; lia|].
    simpl. by rewrite app_nil_r.
  - destruct fuel as [|fuel]; [simpl in Hf; lia|].
    simpl in Hp. apply andb_prop in Hp as [Hc Hp].
    unfold plain in Hc.
    apply andb_prop in Hc as [Hc H92]. apply andb_prop in Hc as [Hc H34].
    apply andb_prop in Hc as [H32 H128].
    apply negb_true_iff in H92, H34.
    assert (Hlt : (code c <? 32) = false).
    { apply N.ltb_ge. by apply N.leb_le. }
    cbn [string_tail app].
    rewrite H34, Hlt, H92. rewrite IH by (done || (simpl in Hf; lia)).
    simpl. by rewrite <- app_assoc.
Qed.

#[local] Arguments string_tail : simpl never.

Lemma forallb_plain_message (m e : string) :
  forallb plain (list_ascii_of_string m) = true ->
  forallb plain (list_ascii_of_string e) = true ->
  forallb plain (list_ascii_of_string (m +:+ ": " +:+ e)) = true.
Proof.
  intros Hm He. rewrite !list_ascii_app, !forallb_app, Hm, He. reflexivity.
Qed.

(** X13: [writeError] splices its two texts into the body as they are.
    When both consist of printable ASCII characters other than the double
    quote and the backslash, the body is a JSON document: an object whose
    only member, "error", holds the message, a colon, a space and the
    error text. *)
Theorem error_envelope_is_json (m e : string) :
  forallb plain (list_ascii_of_string m) = true ->
  forallb plain (list_ascii_of_string e) = true ->
  parse (errorEnvelope m e)
  = inr (JObject [("error", JString (m +:+ ": " +:+ e))]).
Proof.
  intros Hm He.
  pose proof (forallb_plain_message m e Hm He) as Hp.
  assert (Hcs : list_ascii_of_string (errorEnvelope m e)
                = list_ascii_of_string "{" ++ ["034"%char]
                  ++ list_ascii_of_string "error" ++ "034"%char
                  :: list_ascii_of_string ": " ++ "034"%char
                  :: list_ascii_of_string (m +:+ ": " +:+ e)
                  ++ "034"%char :: list_ascii_of_string "}").
  { unfold errorEnvelope, dquote. rewrite !list_ascii_app. simpl.
    rewrite <- !app_assoc. reflexivity. }
  unfold parse. rewrite Hcs.
  set (P := list_ascii_of_string (m +:+ ": " +:+ e)) in *.
  simpl.
  rewrite (string_tail_plain P) by (done || (rewrite length_app; simpl; lia)).
  simpl. unfold P. by rewrite string_of_list_ascii_of_string.
Qed.

End EnvelopeFacts.

(** * The further properties on concrete requests *)

Module MoreRuns.
Import Http GoJSON Run Observations HttpFacts HttpMore EnvelopeFacts.

Lemma query_panics_iff_no_target_witness :
  exists msg,
    serve (queryHandler Unmarshal Marshal (frozen an_instant))
          (post "/query" "{}") [] 0 = Aborted msg.
Proof.
  apply (proj2 (query_panics_iff_no_target Unmarshal Marshal (frozen an_instant)
                  (post "/query" "{}") [] 0)).
  split; [reflexivity|]. exists (query_of []). split; vm_compute; reflexivity.
Defined.

Lemma query_bad_request_iff_witness :
  exists b,
    serve (queryHandler Unmarshal Marshal (frozen an_instant))
          (post "/query" "[1,2") [] 0 = Replied StatusBadRequest b.
Proof.
  apply (proj2 (query_bad_request_iff Unmarshal Marshal (frozen an_instant)
                  (post "/query" "[1,2") [] 0)).
  right; left. split; [reflexivity|].
  exists "unexpected end of JSON input". vm_compute. reflexivity.
Defined.

Lemma unreadable_body_fails_fast_witness :
  queryHandler Unmarshal Marshal (frozen an_instant) broken_request
    (start ["earlier line" +:+ newline] 8)
  = Done tt (mkWorld
      (mkWriter (Some StatusBadRequest)
                (errorEnvelope "Cannot read request body" "unexpected EOF"))
      ["earlier line" +:+ newline] 8).
Proof.
  apply (unreadable_body_fails_fast Unmarshal Marshal (frozen an_instant)
           broken_request "unexpected EOF").
  reflexivity.
Defined.

Lemma undecodable_body_echoes_error_witness :
  serve (queryHandler Unmarshal Marshal (frozen an_instant))
        (post "/query" "[1,2") [] 0
  = Replied StatusBadRequest (json_text
      "{'error': 'cannot unmarshal request body: unexpected end of JSON input'}").
Proof.
  apply (undecodable_body_echoes_error Unmarshal Marshal (frozen an_instant)
           (post "/query" "[1,2") "unexpected end of JSON input" [] 0);
  vm_compute; reflexivity.
Defined.

(** A GET for another path with the same body: [queryHandler] itself
    would answer it as it answers the POST. *)
Lemma query_reply_depends_on_body_only_witness :
  serve (queryHandler Unmarshal Marshal (frozen an_instant))
        (post "/query" body_cpu1_table) [] 0
  = serve (queryHandler Unmarshal Marshal (frozen an_instant))
          (mkRequest "GET" "/elsewhere" (mkBody body_cpu1_table None))
          ["earlier line" +:+ newline] 0.
Proof.
  apply (query_reply_depends_on_body_only Unmarshal Marshal (frozen an_instant)
           (post "/query" body_cpu1_table)
           (mkRequest "GET" "/elsewhere" (mkBody body_cpu1_table None))).
  reflexivity.
Defined.

(** A reading of 1.9 ms before 1970 gives the stamp -1, not -2. *)
Lemma stamp_truncates_towards_zero_witness :
  f64_int (millis (frozen (- 1900000)) 0) = (- 1)%Z
  /\ (Z.abs (- 1900000 - 1000000 * f64_int (millis (frozen (- 1900000)) 0))
      < 1000000)%Z.
Proof.
  split; [reflexivity|].
  apply (stamp_truncates_towards_zero (frozen (- 1900000)) 0).
  unfold frozen. lia.
Defined.

Lemma query_path_reaches_queryHandler_witness :
  ListenAndServe Unmarshal Marshal (frozen an_instant)
    (mkRequest "GET" "/query" (mkBody body_cpu1_timeserie None)) [] 0
  = serve (queryHandler Unmarshal Marshal (frozen an_instant))
          (mkRequest "GET" "/query" (mkBody body_cpu1_timeserie None)) [] 0.
Proof.
  apply (query_path_reaches_queryHandler Unmarshal Marshal (frozen an_instant)
           (mkRequest "GET" "/query" (mkBody body_cpu1_timeserie None))).
  reflexivity.
Defined.


Lemma error_envelope_is_json_witness :
  parse (errorEnvelope "cannot unmarshal request body"
                       "unexpected end of JSON input")
  = inr (JObject
      [("error",
        JString "cannot unmarshal request body: unexpected end of JSON input")]).
Proof.
  apply (error_envelope_is_json "cannot unmarshal request body"
                                "unexpected end of JSON input");
  reflexivity.
Defined.

(** An error text with a double quote in it is spliced in all the same:
    the decoder's complaint about a quote after an object key makes a
    body that is not a JSON document. *)
Example quote_in_error_breaks_envelope :
  server (frozen an_instant) (post "/query" (json_text "{'a' 'b'}"))
  = Replied 400 (errorEnvelope "cannot unmarshal request body"
                   ("invalid character '" +:+ dquote +:+ "' after object key"))
  /\ parse (errorEnvelope "cannot unmarshal request body"
              ("invalid character '" +:+ dquote +:+ "' after object key"))
     = inl (InvalidChar "'" "after object key:value pair").
Proof. split; vm_compute; reflexivity. Qed.

End MoreRuns.
